(** * PyRoboLearn: constraints, approximator wrapper and manipulator robots

    A shallow embedding of three modules of the repository:

    - [pyrobolearn/priorities/constraints/constraint.py]: the [Constraint]
      class hierarchy used by the QP-based priority controller, together
      with the quadratic-programming identities of its module docstring;
    - [pyrobolearn/approximators/approximator.py]: the [Approximator]
      wrapper and its validated properties;
    - [pyrobolearn/robots/manipulator.py]: [ManipulatorRobot] and
      [BiManipulatorRobot].

    Python objects are modelled by their class and their instance
    dictionary; attribute access follows Python's lookup order (properties
    of the class first, then the instance dictionary, then the other class
    members) along the method resolution order.  Raising an exception is a
    [Raise] result.  The matrices of the QP formulation are MathComp
    matrices over an arbitrary commutative (ordered) ring.

    Part I holds the definitions, Part II the theorems. *)

From HB Require Import structures.
From Stdlib Require Import ZArith String Lia.
From mathcomp Require Import boot order algebra.

Set Implicit Arguments.
Unset Strict Implicit.
Unset Printing Implicit Defensive.

(* ssrint binds the key Z to its own scope; give it back to ZArith. *)
Delimit Scope Z_scope with Z.

(* ===================================================================== *)
(** * Part I: definitions                                                 *)
(* ===================================================================== *)

(** ** Python values, exceptions and objects *)

Module Py.

Local Open Scope string_scope.

(** The exceptions raised by the three modules. *)
Inductive exn := TypeError | ValueError | AttributeError | IndexError.

Inductive result (A : Type) :=
| Ok (a : A)
| Raise (e : exn).
Arguments Ok {A} a.
Arguments Raise {A} e.

(** Values.  A float is kept as mantissa and exponent (no arithmetic is
    done on it here); [PyObj] is an instance of any other class, given by
    the names of the classes of its method resolution order and by the
    attributes that can be read from it. *)
Inductive pyval :=
| PyNone
| PyBool (b : bool)
| PyInt (z : Z)
| PyFloat (m e : Z)
| PyStr (s : string)
| PyList (l : seq pyval)
| PyTuple (l : seq pyval)
| PyObj (mro : seq string) (attrs : seq (string * pyval)).

(** [type(v).__mro__], by class name.  [bool] is a subclass of [int]. *)
Definition type_mro (v : pyval) : seq string :=
  match v with
  | PyNone => [:: "NoneType"; "object"]
  | PyBool _ => [:: "bool"; "int"; "object"]
  | PyInt _ => [:: "int"; "object"]
  | PyFloat _ _ => [:: "float"; "object"]
  | PyStr _ => [:: "str"; "object"]
  | PyList _ => [:: "list"; "object"]
  | PyTuple _ => [:: "tuple"; "object"]
  | PyObj mro _ => mro
  end.

(** [isinstance(v, c)] and [isinstance(v, (c1, ..., cn))]. *)
Definition isinstance (v : pyval) (c : string) : bool :=
  has (String.eqb c) (type_mro v).

Definition isinstance_any (v : pyval) (cs : seq string) : bool :=
  has (isinstance v) cs.

(** [v is None]. *)
Definition is_None (v : pyval) : bool :=
  match v with PyNone => true | _ => false end.

(** Dictionaries keyed by strings (instance dictionaries, attributes). *)
Definition pydict := seq (string * pyval).

Fixpoint dict_get (A : Type) (d : seq (string * A)) (k : string) : option A :=
  match d with
  | [::] => None
  | (k', v) :: d' => if String.eqb k k' then Some v else dict_get d' k
  end.

Fixpoint dict_set (d : pydict) (k : string) (v : pyval) : pydict :=
  match d with
  | [::] => [:: (k, v)]
  | (k', v') :: d' =>
      if String.eqb k k' then (k, v) :: d' else (k', v') :: dict_set d' k v
  end.

(** [v.name] for a value that is an argument of the modelled code. *)
Definition attr_of (v : pyval) (name : string) : result pyval :=
  match v with
  | PyObj _ attrs =>
      match dict_get attrs name with
      | Some a => Ok a
      | None => Raise AttributeError
      end
  | _ => Raise AttributeError
  end.

(** [operator.index]: the values a list accepts as an index. *)
Definition as_index (i : pyval) : option Z :=
  match i with
  | PyInt z => Some z
  | PyBool b => Some (if b then 1%Z else 0%Z)
  | _ => None
  end.

(** [l[i]] on a list: negative indices count from the end, an index out
    of range raises [IndexError], a non-integer index [TypeError]. *)
Definition list_getitem (l : seq pyval) (i : pyval) : result pyval :=
  match as_index i with
  | None => Raise TypeError
  | Some z =>
      let n := Z.of_nat (size l) in
      let k := if (z <? 0)%Z then (z + n)%Z else z in
      if (0 <=? k)%Z && (k <? n)%Z then Ok (nth PyNone l (Z.to_nat k))
      else Raise IndexError
  end.

(** *** Instances and class members

    An instance is its class and its [__dict__].  A method body is a
    computation over the instance that may raise. *)
Section Objects.

Variable class : Type.

Record instance := Instance { cls : class; dict : pydict }.

Definition M (A : Type) : Type := instance -> result (A * instance).

Definition ret (A : Type) (a : A) : M A := fun self => Ok (a, self).

Definition raise (A : Type) (e : exn) : M A := fun _ => Raise e.

Definition bind (A B : Type) (c : M A) (k : A -> M B) : M B :=
  fun self =>
    match c self with
    | Ok (a, self') => k a self'
    | Raise e => Raise e
    end.

(** [self._name] and [self._name = v] for a name that no class defines:
    a plain access to the instance dictionary. *)
Definition load (name : string) : M pyval :=
  fun self =>
    match dict_get (dict self) name with
    | Some v => Ok (v, self)
    | None => Raise AttributeError
    end.

Definition store (name : string) (v : pyval) : M pyval :=
  fun self => Ok (PyNone, Instance (cls self) (dict_set (dict self) name v)).

(** What reading leaves to the caller: the value read or the exception. *)
Definition outcome (A : Type) (r : result (A * instance)) : result A :=
  match r with
  | Ok (a, _) => Ok a
  | Raise e => Raise e
  end.

(** What a class body can bind a name to. *)
Inductive member :=
| Property (fget : M pyval) (fset : option (pyval -> M pyval))
| StaticMethod (f : seq pyval -> result pyval)
| Method (f : seq pyval -> M pyval).

(** The result of reading an attribute: a value, or a callable member. *)
Inductive attr :=
| Data (v : pyval)
| Callable (m : member).

Variable mro : class -> seq class.
Variable body : class -> seq (string * member).

(** First binding of [name] along the method resolution order. *)
Fixpoint find_member (ks : seq class) (name : string) : option member :=
  match ks with
  | [::] => None
  | k :: ks' =>
      match dict_get (body k) name with
      | Some m => Some m
      | None => find_member ks' name
      end
  end.

(** [self.name]: a property of the class wins, then the instance
    dictionary, then the remaining class members. *)
Definition getattr (name : string) : M attr :=
  fun self =>
    match find_member (mro (cls self)) name with
    | Some (Property fget _) =>
        match fget self with
        | Ok (v, self') => Ok (Data v, self')
        | Raise e => Raise e
        end
    | other =>
        match dict_get (dict self) name, other with
        | Some v, _ => Ok (Data v, self)
        | None, Some m => Ok (Callable m, self)
        | None, None => Raise AttributeError
        end
    end.

(** [self.name = v]: a property is set through its setter and a property
    without one cannot be set; anything else goes to the dictionary. *)
Definition setattr (name : string) (v : pyval) : M pyval :=
  fun self =>
    match find_member (mro (cls self)) name with
    | Some (Property _ (Some fset)) => fset v self
    | Some (Property _ None) => Raise AttributeError
    | _ => store name v self
    end.

(** [self.name(args)]: the attribute is read as above and called.  An
    instance attribute of that name shadows a method of the class; the
    values kept in instance dictionaries here are data, and calling data
    raises [TypeError]. *)
Definition call (name : string) (args : seq pyval) : M pyval :=
  fun self =>
    match getattr name self with
    | Ok (Callable (Method f), self') => f args self'
    | Ok (Callable (StaticMethod f), self') =>
        match f args with
        | Ok v => Ok (v, self')
        | Raise e => Raise e
        end
    | Ok (_, _) => Raise TypeError
    | Raise e => Raise e
    end.

(** [k.name(args)] on the class itself, for a static method. *)
Definition class_call (k : class) (name : string) (args : seq pyval)
  : result pyval :=
  match find_member (mro k) name with
  | Some (StaticMethod f) => f args
  | Some _ => Raise TypeError
  | None => Raise AttributeError
  end.

End Objects.

Arguments ret {class A} a.
Arguments raise {class A} e.
Arguments load {class} name.
Arguments store {class} name v.
Arguments StaticMethod {class} f.
Arguments Data {class} v.
Arguments Callable {class} m.

(** A computation that cannot touch the instance. *)
Definition lift (class A : Type) (r : result A) : M class A :=
  fun self =>
    match r with
    | Ok a => Ok (a, self)
    | Raise e => Raise e
    end.

End Py.

Notation "x <- c ;; k" := (Py.bind c (fun x => k))
  (at level 100, c at next level, right associativity).
Notation "c ;;; k" := (Py.bind c (fun _ => k))
  (at level 100, right associativity).

(** ** constraint.py: the Constraint hierarchy *)

Module constraint.
Import Py.
Local Open Scope string_scope.

(** The classes of the module. *)
Inductive class :=
| Constraint
| EqualityConstraint
| InequalityConstraint
| UnilateralConstraint
| BilateralConstraint
| BoundConstraint
| KinematicConstraint
| JointVelocityConstraint
| DynamicConstraint
| JointAccelerationConstraint
| JointEffortConstraint.

(** The base named in each [class] statement ([None] stands for [object]). *)
Definition base (k : class) : option class :=
  match k with
  | Constraint => None
  | EqualityConstraint => Some Constraint
  | InequalityConstraint => Some Constraint
  | UnilateralConstraint => Some InequalityConstraint
  | BilateralConstraint => Some InequalityConstraint
  | BoundConstraint => Some InequalityConstraint
  | KinematicConstraint => Some Constraint
  | JointVelocityConstraint => Some KinematicConstraint
  | DynamicConstraint => Some Constraint
  | JointAccelerationConstraint => Some DynamicConstraint
  | JointEffortConstraint => Some DynamicConstraint
  end.

Fixpoint linearize (fuel : nat) (k : class) : seq class :=
  k :: match fuel, base k with
       | S fuel', Some p => linearize fuel' p
       | _, _ => [::]
       end.

(** Method resolution order; no class is more than two steps below
    [Constraint]. *)
Definition mro (k : class) : seq class := linearize 2 k.

Definition obj : Type := instance class.
Definition M (A : Type) : Type := Py.M class A.

(** *** Properties of [Constraint] *)

Definition model_getter : M pyval := load "_model".

Definition model_setter (model : pyval) : M pyval :=
  if ~~ isinstance model "ModelInterface" then raise TypeError
  else store "_model" model.

Definition lower_bound : M pyval := load "_lower_bound".
Definition upper_bound : M pyval := load "_upper_bound".
Definition A_eq : M pyval := load "_A_eq".
Definition b_eq : M pyval := load "_b_eq".
Definition A_ineq : M pyval := load "_A_ineq".
Definition b_lower_bound : M pyval := load "_b_lower_bound".
Definition b_upper_bound : M pyval := load "_b_upper_bound".

(** The bodies of [G], [h] and [F] are [pass]; the one of [c] is its
    docstring alone.  Each returns [None]. *)
Definition G : M pyval := ret PyNone.
Definition h : M pyval := ret PyNone.
Definition F : M pyval := ret PyNone.
Definition c : M pyval := ret PyNone.

(** *** Static methods of [Constraint] (none takes an argument) *)

Definition is_equality_constraint (args : seq pyval) : result pyval :=
  match args with [::] => Ok (PyBool false) | _ => Raise TypeError end.

Definition is_inequality_constraint (args : seq pyval) : result pyval :=
  match args with [::] => Ok (PyBool false) | _ => Raise TypeError end.

Definition has_bounds (args : seq pyval) : result pyval :=
  match args with [::] => Ok (PyBool false) | _ => Raise TypeError end.

Definition is_unilateral_constraint (args : seq pyval) : result pyval :=
  match args with [::] => Ok (PyBool false) | _ => Raise TypeError end.

Definition is_bilateral_constraint (args : seq pyval) : result pyval :=
  match args with [::] => Ok (PyBool false) | _ => Raise TypeError end.

(** *** Methods of [Constraint] *)

(** [update(self, x)]: the body is [pass]. *)
Definition update (args : seq pyval) : M pyval :=
  match args with [:: x] => ret PyNone | _ => raise TypeError end.

(** The members of [Constraint] whose bodies use no other member. *)
Definition Constraint_members : seq (string * member class) :=
  [:: ("model", Property model_getter (Some model_setter));
      ("lower_bound", Property lower_bound None);
      ("upper_bound", Property upper_bound None);
      ("A_eq", Property A_eq None);
      ("b_eq", Property b_eq None);
      ("A_ineq", Property A_ineq None);
      ("b_lower_bound", Property b_lower_bound None);
      ("b_ineq_lower", Property b_lower_bound None);
      ("b_upper_bound", Property b_upper_bound None);
      ("G", Property G None);
      ("h", Property h None);
      ("F", Property F None);
      ("c", Property c None);
      ("is_equality_constraint", StaticMethod is_equality_constraint);
      ("is_inequality_constraint", StaticMethod is_inequality_constraint);
      ("has_bounds", StaticMethod has_bounds);
      ("is_unilateral_constraint", StaticMethod is_unilateral_constraint);
      ("is_bilateral_constraint", StaticMethod is_bilateral_constraint);
      ("update", Method update)].

Definition members (k : class) : seq (string * member class) :=
  match k with
  | Constraint => Constraint_members
  | _ => [::]
  end.

(** [__init__(self, model)]: [self.model = model], through the property. *)
Definition __init__ (args : seq pyval) : M pyval :=
  match args with
  | [:: model] => setattr mro members "model" model
  | _ => raise TypeError
  end.

(** [__call__(self, x)]: [return self.update(x)]. *)
Definition __call__ (args : seq pyval) : M pyval :=
  match args with
  | [:: x] => call mro members "update" [:: x]
  | _ => raise TypeError
  end.

(** [__name__] of each class. *)
Definition class_name (k : class) : string :=
  match k with
  | Constraint => "Constraint"
  | EqualityConstraint => "EqualityConstraint"
  | InequalityConstraint => "InequalityConstraint"
  | UnilateralConstraint => "UnilateralConstraint"
  | BilateralConstraint => "BilateralConstraint"
  | BoundConstraint => "BoundConstraint"
  | KinematicConstraint => "KinematicConstraint"
  | JointVelocityConstraint => "JointVelocityConstraint"
  | DynamicConstraint => "DynamicConstraint"
  | JointAccelerationConstraint => "JointAccelerationConstraint"
  | JointEffortConstraint => "JointEffortConstraint"
  end.

(** [__str__(self)]: [return self.__class__.__name__]. *)
Definition __str__ (args : seq pyval) : M pyval :=
  match args with
  | [::] => fun self => Ok (PyStr (class_name (cls self)), self)
  | _ => raise TypeError
  end.

(** The class bodies.  Every subclass body is [pass] (after its
    docstring): it binds no name. *)
Definition body (k : class) : seq (string * member class) :=
  match k with
  | Constraint =>
      Constraint_members ++
      [:: ("__init__", Method __init__); ("__str__", Method __str__);
          ("__call__", Method __call__)]
  | EqualityConstraint => [::]
  | InequalityConstraint => [::]
  | UnilateralConstraint => [::]
  | BilateralConstraint => [::]
  | BoundConstraint => [::]
  | KinematicConstraint => [::]
  | JointVelocityConstraint => [::]
  | DynamicConstraint => [::]
  | JointAccelerationConstraint => [::]
  | JointEffortConstraint => [::]
  end.

(** [k(args)]: a fresh instance initialised by [__init__]. *)
Definition new (k : class) (args : seq pyval) : result obj :=
  match call mro body "__init__" args (Instance k [::]) with
  | Ok (_, self) => Ok self
  | Raise e => Raise e
  end.

(** Reading, writing and calling on an instance. *)
Definition get (name : string) : M (attr class) := getattr mro body name.
Definition set (name : string) (v : pyval) : M pyval := setattr mro body name v.
Definition invoke (name : string) (args : seq pyval) : M pyval :=
  call mro body name args.
Definition static (k : class) (name : string) : result pyval :=
  class_call mro body k name [::].

(** The names of the accessors of the numeric state, each with the
    private field it reads. *)
Definition accessors : seq (string * string) :=
  [:: ("lower_bound", "_lower_bound"); ("upper_bound", "_upper_bound");
      ("A_eq", "_A_eq"); ("b_eq", "_b_eq"); ("A_ineq", "_A_ineq");
      ("b_lower_bound", "_b_lower_bound");
      ("b_upper_bound", "_b_upper_bound")].

(** The three classification predicates of a class, when each returns a
    boolean. *)
Definition flag (k : class) (name : string) : option bool :=
  match static k name with
  | Ok (PyBool b) => Some b
  | _ => None
  end.

Definition classification (k : class) : option (bool * bool * bool) :=
  match flag k "is_equality_constraint",
        flag k "is_inequality_constraint",
        flag k "has_bounds" with
  | Some e, Some i, Some b => Some (e, i, b)
  | _, _, _ => None
  end.

(** The instances the code of the module itself produces: built by a
    constructor call, then used through the [model] property, [update]
    and [__call__]. *)
Inductive reachable : obj -> Prop :=
| reach_new k model self :
    new k [:: model] = Ok self -> reachable self
| reach_set_model self v r self' :
    reachable self -> set "model" v self = Ok (r, self') -> reachable self'
| reach_update self x r self' :
    reachable self -> invoke "update" [:: x] self = Ok (r, self') ->
    reachable self'
| reach_call self x r self' :
    reachable self -> invoke "__call__" [:: x] self = Ok (r, self') ->
    reachable self'.



(** The instance [update(x)] leaves, and what reading [name] then gives. *)
Definition after_update (x : pyval) (self : obj) : result obj :=
  match invoke "update" [:: x] self with
  | Ok (_, self') => Ok self'
  | Raise e => Raise e
  end.

Definition read_after_update (name : string) (x : pyval) (self : obj)
  : result (attr class) :=
  match after_update x self with
  | Ok self' => outcome (get name self')
  | Raise e => Raise e
  end.

(** The properties of the standard form. *)
Definition standard_form : seq string := [:: "G"; "h"; "F"; "c"].

(** Two sample arguments: an instance of a subclass of [ModelInterface],
    and the value of an optimisation variable. *)
Definition a_model : pyval :=
  PyObj [:: "RobotModelInterface"; "ModelInterface"; "object"] [::].

Definition some_x : pyval := PyList [:: PyFloat 1 0; PyFloat 3 (-1)].




(** The two predicates on the shape of an inequality constraint. *)
Definition shape_predicates : seq string :=
  [:: "is_unilateral_constraint"; "is_bilateral_constraint"].

End constraint.

(** ** approximator.py: the Approximator wrapper *)

Module approximator.
Import Py.
Local Open Scope string_scope.

(** The module defines one class. *)
Inductive class := Approximator.

Definition mro (k : class) : seq class := [:: k].

Definition obj : Type := instance class.
Definition M (A : Type) : Type := Py.M class A.

(** [np.array([v])]: a one-dimensional array of one element. *)
Definition np_array1 (v : pyval) : pyval :=
  PyObj [:: "ndarray"; "object"]
        [:: ("shape", PyTuple [:: PyInt 1]); ("size", PyInt 1);
            ("data", PyList [:: v])].

(** [callable(v)].  None of the values that are not objects ([None],
    booleans, numbers, strings, lists, tuples) is callable.  For an
    object Python asks its class for [__call__]; [PyObj] does not tell
    the attributes of the class from those of the instance, and the
    model takes an object that has the attribute for a callable one. *)
Definition callable (v : pyval) : bool :=
  match attr_of v "__call__" with Ok _ => true | Raise _ => false end.

(** The items that iterating a list, a tuple or a string yields; no
    other value that is not an object is iterable.  The iteration of an
    object (an array, say) is not modelled. *)
Definition iter_items (v : pyval) : option (seq pyval) :=
  match v with
  | PyList l => Some l
  | PyTuple l => Some l
  | PyStr s => Some [seq PyStr (String a EmptyString) | a <- list_ascii_of_string s]
  | _ => None
  end.

Definition inputs_getter : M pyval := load "_inputs".

Definition inputs_setter (inputs : pyval) : M pyval :=
  inputs' <-
    (if ~~ is_None inputs then
       inputs1 <-
         (if isinstance_any inputs [:: "int"; "float"] then
            ret (np_array1 inputs)
          else if ~~ isinstance_any inputs
                       [:: "State"; "Action"; "Tensor"; "ndarray"] then
            raise TypeError
          else ret inputs) ;;
       model <- load "_model" ;;
       ret inputs1
     else ret inputs) ;;
  store "_inputs" inputs'.

Definition outputs_getter : M pyval := load "_outputs".

Definition outputs_setter (outputs : pyval) : M pyval :=
  outputs' <-
    (if ~~ is_None outputs then
       outputs1 <-
         (if isinstance_any outputs [:: "int"; "float"] then
            ret (np_array1 outputs)
          else if ~~ isinstance_any outputs
                       [:: "State"; "Action"; "Tensor"; "ndarray"] then
            raise TypeError
          else ret outputs) ;;
       model <- load "_model" ;;
       ret outputs1
     else ret outputs) ;;
  store "_outputs" outputs'.

Definition model_getter : M pyval := load "_model".

(** The setter of [model].  After the two [None] tests the only use of
    the model is the read [shape = model.input_shape]; the comparison of
    shapes is left as a TODO in the source and nothing follows the read. *)
Definition model_setter (model : pyval) : M pyval :=
  (if ~~ is_None model then
     inputs <- load "_inputs" ;;
     if is_None inputs then raise ValueError
     else
       outputs <- load "_outputs" ;;
       if is_None outputs then raise ValueError
       else
         shape <- lift (attr_of model "input_shape") ;;
         ret PyNone
   else ret PyNone) ;;;
  store "_model" model.

(** The common body of the setters of [preprocessors] and
    [postprocessors], up to the private field they assign. *)
Definition processors_setter (field : string) (processors : pyval) : M pyval :=
  processors' <-
    (if is_None processors then ret (PyList [::])
     else if callable processors then ret (PyList [:: processors])
     else match iter_items processors with
          | Some items =>
              if all callable items then ret processors else raise ValueError
          | None => raise TypeError
          end) ;;
  store field processors'.

Definition preprocessors_getter : M pyval := load "_preprocessors".
Definition preprocessors_setter : pyval -> M pyval :=
  processors_setter "_preprocessors".
Definition postprocessors_getter : M pyval := load "_postprocessors".
Definition postprocessors_setter : pyval -> M pyval :=
  processors_setter "_postprocessors".

Definition members (k : class) : seq (string * member class) :=
  match k with
  | Approximator =>
      [:: ("inputs", Property inputs_getter (Some inputs_setter));
          ("outputs", Property outputs_getter (Some outputs_setter));
          ("model", Property model_getter (Some model_setter));
          ("preprocessors",
           Property preprocessors_getter (Some preprocessors_setter));
          ("postprocessors",
           Property postprocessors_getter (Some postprocessors_setter))]
  end.

(** [__init__(self, inputs, outputs, model=None, preprocessors=None,
    postprocessors=None)]. *)
Definition init_body (inputs outputs model pre post : pyval) : M pyval :=
  store "_model" PyNone ;;;
  setattr mro members "inputs" inputs ;;;
  setattr mro members "outputs" outputs ;;;
  setattr mro members "preprocessors" pre ;;;
  setattr mro members "postprocessors" post ;;;
  setattr mro members "model" model.

Definition __init__ (args : seq pyval) : M pyval :=
  match args with
  | [:: i; o] => init_body i o PyNone PyNone PyNone
  | [:: i; o; m] => init_body i o m PyNone PyNone
  | [:: i; o; m; pre] => init_body i o m pre PyNone
  | [:: i; o; m; pre; post] => init_body i o m pre post
  | _ => raise TypeError
  end.

(** *** The properties that delegate to the inner model

    [input_size], [output_size], [input_shape], [output_shape],
    [input_dim], [output_dim], [num_parameters] and [num_hyperparameters]
    all have the body [return self.model.<the same name>]: the [model]
    property is read, then the attribute of its value. *)
Definition delegated : seq string :=
  [:: "input_size"; "output_size"; "input_shape"; "output_shape";
      "input_dim"; "output_dim"; "num_parameters"; "num_hyperparameters"].

Definition delegate (name : string) : M pyval :=
  model <- model_getter ;;
  lift (attr_of model name).

(** The class body: the validated properties, the delegating ones and
    the constructor. *)
Definition body (k : class) : seq (string * member class) :=
  members k ++
  [seq (name, Property (delegate name) None) | name <- delegated] ++
  [:: ("__init__", Method __init__)].

Definition new (args : seq pyval) : result obj :=
  match call mro body "__init__" args (Instance Approximator [::]) with
  | Ok (_, self) => Ok self
  | Raise e => Raise e
  end.

Definition get (name : string) : M (attr class) := getattr mro body name.
Definition set (name : string) (v : pyval) : M pyval := setattr mro body name v.

(** The agreement of shapes that the comment [check model input/output
    shape] announces.  The source has no function for it: this is the
    comparison the specification speaks of, dimension by dimension. *)
Fixpoint dims_eqb (a b : seq pyval) : bool :=
  match a, b with
  | [::], [::] => true
  | x :: a', y :: b' =>
      match as_index x, as_index y with
      | Some u, Some v => (u =? v)%Z && dims_eqb a' b'
      | _, _ => false
      end
  | _, _ => false
  end.

Definition shape_eqb (u v : result pyval) : bool :=
  match u, v with
  | Ok (PyTuple a), Ok (PyTuple b) => dims_eqb a b
  | _, _ => false
  end.

Definition shapes_agree (self : obj) (model : pyval) : bool :=
  match dict_get (dict self) "_inputs", dict_get (dict self) "_outputs" with
  | Some i, Some o =>
      shape_eqb (attr_of i "shape") (attr_of model "input_shape") &&
      shape_eqb (attr_of o "shape") (attr_of model "output_shape")
  | _, _ => false
  end.

(** Sample arguments: an array of a given shape and a learning model
    that reports its two shapes. *)
Definition array_of_shape (dims : seq Z) : pyval :=
  PyObj [:: "ndarray"; "object"]
        [:: ("shape", PyTuple [seq PyInt d | d <- dims]);
            ("size", PyInt (foldr Z.mul 1%Z dims))].

Definition model_of_shapes (input_dims output_dims : seq Z) : pyval :=
  PyObj [:: "Model"; "object"]
        [:: ("input_shape", PyTuple [seq PyInt d | d <- input_dims]);
            ("output_shape", PyTuple [seq PyInt d | d <- output_dims])].

(** Reading and assigning a property of the class. *)
Definition read (name : string) : M (attr class) := getattr mro body name.

Definition assign (name : string) (v : pyval) : M pyval :=
  setattr mro body name v.

(** [_size(self, x)].  [State], [Action] and [torch.Tensor] are not part
    of these sources: the size of a state or action (the branch on
    [x.is_discrete()]) and [x.numel()] are parameters. *)
Definition _size (state_size numel : pyval -> result pyval) (x : pyval)
  : result pyval :=
  if isinstance_any x [:: "State"; "Action"] then state_size x
  else if isinstance x "ndarray" then attr_of x "size"
  else if isinstance x "Tensor" then numel x
  else if isinstance x "int" then Ok x
  else Ok (PyInt 0).

(** What the setters of [inputs] and [outputs] accept, and what they
    store for an accepted value. *)
Definition accepted_io (v : pyval) : bool :=
  [|| is_None v, isinstance_any v [:: "int"; "float"] |
      isinstance_any v [:: "State"; "Action"; "Tensor"; "ndarray"]].

Definition stored_io (v : pyval) : pyval :=
  if ~~ is_None v && isinstance_any v [:: "int"; "float"] then np_array1 v
  else v.

(** The values that are not objects, and among them the ones that
    cannot be iterated. *)
Definition plain (v : pyval) : bool :=
  match v with PyObj _ _ => false | _ => true end.

Definition scalar (v : pyval) : bool :=
  match v with
  | PyBool _ | PyInt _ | PyFloat _ _ => true
  | _ => false
  end.

(** The instance [__init__] has built, with the default processors, when
    it reaches its last statement [self.model = model]. *)
Definition built (inputs outputs : pyval) : obj :=
  Instance Approximator
    [:: ("_model", PyNone); ("_inputs", stored_io inputs);
        ("_outputs", stored_io outputs);
        ("_preprocessors", PyList [::]); ("_postprocessors", PyList [::])].

(** The two properties that hold processors, each with its field. *)
Definition processor_properties : seq (string * string) :=
  [:: ("preprocessors", "_preprocessors");
      ("postprocessors", "_postprocessors")].

End approximator.

(** ** manipulator.py: manipulator robots *)

Module manipulator.
Import Py.
Local Open Scope string_scope.

Section Robots.

(** [Robot], the base class, is not part of these sources: its state and
    the two members the module uses are parameters. *)
Variable Robot : Type.
Variable Robot_init : seq pyval -> result Robot.
Variable get_link_ids : Robot -> pyval -> result pyval.

(** A [ManipulatorRobot]: the state of the base class, the list of arms
    and the list of hands. *)
Record ManipulatorRobot := Manipulator {
  robot : Robot;
  arms : seq pyval;
  hands : seq pyval
}.

(** [__init__]: the constructor of [Robot], then two empty lists. *)
Definition ManipulatorRobot_init (args : seq pyval) : result ManipulatorRobot :=
  match Robot_init args with
  | Ok r => Ok (Manipulator r [::] [::])
  | Raise e => Raise e
  end.

Definition num_arms (self : ManipulatorRobot) : pyval :=
  PyInt (Z.of_nat (size (arms self))).

Definition num_hands (self : ManipulatorRobot) : pyval :=
  PyInt (Z.of_nat (size (hands self))).

(** [links[self.get_link_ids(name)]]. *)
Definition by_name (r : Robot) (links : seq pyval) (name : pyval)
  : result pyval :=
  match get_link_ids r name with
  | Ok i => list_getitem links i
  | Raise e => Raise e
  end.

(** The loop over the items of a list or tuple argument, [ids] being the
    list built so far. *)
Fixpoint collect (r : Robot) (links : seq pyval) (items : seq pyval)
  (ids : seq pyval) : result pyval :=
  match items with
  | [::] => Ok (PyList ids)
  | item :: items' =>
      if isinstance item "int" then
        match list_getitem links item with
        | Ok v => collect r links items' (rcons ids v)
        | Raise e => Raise e
        end
      else if isinstance item "str" then
        match by_name r links item with
        | Ok v => collect r links items' (rcons ids v)
        | Raise e => Raise e
        end
      else Raise TypeError
  end.

(** The items of a list or tuple. *)
Definition items_of (v : pyval) : seq pyval :=
  match v with
  | PyList l => l
  | PyTuple l => l
  | _ => [::]
  end.

(** The common shape of [get_arm_ids] and [get_hand_ids] over the list
    [links] ([self.arms], respectively [self.hands]). *)
Definition get_ids (r : Robot) (links : seq pyval) (arg : pyval)
  : result pyval :=
  if ~~ is_None arg then
    if isinstance arg "int" then list_getitem links arg
    else if isinstance arg "str" then by_name r links arg
    else if isinstance_any arg [:: "list"; "tuple"] then
      collect r links (items_of arg) [::]
    else Ok (PyList links)
  else Ok (PyList links).

Definition get_arm_ids (self : ManipulatorRobot) (arms_arg : pyval)
  : result pyval :=
  get_ids (robot self) (arms self) arms_arg.

Definition get_hand_ids (self : ManipulatorRobot) (hands_arg : pyval)
  : result pyval :=
  get_ids (robot self) (hands self) hands_arg.

(** A [BiManipulatorRobot] adds the four indices. *)
Record BiManipulatorRobot := BiManipulator {
  manip : ManipulatorRobot;
  left_arm_id : Z;
  left_hand_id : Z;
  right_arm_id : Z;
  right_hand_id : Z
}.

Definition BiManipulatorRobot_init (args : seq pyval)
  : result BiManipulatorRobot :=
  match ManipulatorRobot_init args with
  | Ok m => Ok (BiManipulator m 0 0 1 1)
  | Raise e => Raise e
  end.

Definition left_arm (self : BiManipulatorRobot) : result pyval :=
  list_getitem (arms (manip self)) (PyInt (left_arm_id self)).

Definition right_arm (self : BiManipulatorRobot) : result pyval :=
  list_getitem (arms (manip self)) (PyInt (right_arm_id self)).

Definition left_hand (self : BiManipulatorRobot) : result pyval :=
  list_getitem (hands (manip self)) (PyInt (left_hand_id self)).

(** [return self.hands[self.right_arm_id]]. *)
Definition right_hand (self : BiManipulatorRobot) : result pyval :=
  list_getitem (hands (manip self)) (PyInt (right_arm_id self)).

(** The robot with its list of hands replaced (a subclass fills the list
    after construction). *)
Definition with_hands (self : BiManipulatorRobot) (hs : seq pyval)
  : BiManipulatorRobot :=
  BiManipulator (Manipulator (robot (manip self)) (arms (manip self)) hs)
                (left_arm_id self) (left_hand_id self)
                (right_arm_id self) (right_hand_id self).

(** The robot with its list of arms replaced. *)
Definition with_arms (self : BiManipulatorRobot) (l : seq pyval)
  : BiManipulatorRobot :=
  BiManipulator (Manipulator (robot (manip self)) l (hands (manip self)))
                (left_arm_id self) (left_hand_id self)
                (right_arm_id self) (right_hand_id self).

(** An item of a list argument that the loop can resolve: an [int] or a
    [str]. *)
Definition resolvable (item : pyval) : bool :=
  isinstance item "int" || isinstance item "str".

End Robots.

(** A sample robot with two arms and one hand, over a base class that
    knows the single link name "left". *)
Definition one_name (_ : unit) (name : pyval) : result pyval :=
  match name with
  | PyStr "left" => Ok (PyInt 0)
  | _ => Raise ValueError
  end.

Definition two_arms : ManipulatorRobot unit :=
  Manipulator tt [:: PyInt 4; PyInt 9] [:: PyInt 11].

(** A sample robot with two hands whose index of the right hand, -1,
    differs from the one of the right arm, 1. *)
Definition crossed : BiManipulatorRobot unit :=
  BiManipulator (Manipulator tt [::] [:: PyInt 10; PyInt 20]) 0 0 1 (-1).

(** A list of [n] distinct hands: the integers [0 .. n-1]. *)
Definition numbered (n : nat) : seq pyval :=
  [seq PyInt (Z.of_nat i) | i <- iota 0 n].


End manipulator.

(** ** The quadratic programs of the priority scheme

    The module docstring of constraint.py and the specification describe
    how the tasks of the priority levels are turned into quadratic
    programs.  The code that does it (the priority aggregator) is not part
    of these sources; the definitions below are written from its
    description. *)

Module qp.
Import GRing.Theory Num.Theory.
Local Open Scope ring_scope.

Section Soft.

Variable R : comRingType.
Variables m n : nat.

(** Modelled from the spec: the priority aggregator is missing; this is
    the weighted objective [||v||^2_W = v^T W v] of a task. *)
Definition weighted_sqnorm (W : 'M[R]_m) (v : 'cV[R]_m) : R :=
  (v^T *m W *m v) 0 0.

(** Modelled from the spec: the priority aggregator is missing; the
    standard-form matrix [Q = A^T W A] of a soft task. *)
Definition soft_Q (A : 'M[R]_(m, n)) (W : 'M[R]_m) : 'M[R]_n :=
  A^T *m W *m A.

(** Modelled from the spec: the priority aggregator is missing; the
    standard-form vector [p = -2 A^T W b] of a soft task. *)
Definition soft_p (A : 'M[R]_(m, n)) (W : 'M[R]_m) (b : 'cV[R]_m)
  : 'cV[R]_n :=
  (- 2%:R) *: (A^T *m W *m b).

(** Modelled from the spec: the priority aggregator is missing; the
    vector [p = c - 2 A^T W b] when the linear term [c^T x] is added. *)
Definition soft_p_linear (A : 'M[R]_(m, n)) (W : 'M[R]_m) (b : 'cV[R]_m)
  (c : 'cV[R]_n) : 'cV[R]_n :=
  c - 2%:R *: (A^T *m W *m b).

(** Modelled from the spec: the priority aggregator is missing; the
    value [x^T Q x + p^T x] of the reduced objective, as the docstring
    expands it. *)
Definition quadratic_form (Q : 'M[R]_n) (p : 'cV[R]_n) (x : 'cV[R]_n) : R :=
  (x^T *m Q *m x) 0 0 + (p^T *m x) 0 0.

End Soft.

Section Hard.

Variable R : numDomainType.
Variable n : nat.

(** Modelled from the spec: the priority aggregator is missing; one
    priority level is a task [(A, b)] with its inequality constraints
    [G x <= h] and its equality constraints [F x = c]. *)
Record level := Level {
  task_rows : nat;
  task_A : 'M[R]_(task_rows, n);
  task_b : 'cV[R]_task_rows;
  ineq_rows : nat;
  ineq_G : 'M[R]_(ineq_rows, n);
  ineq_h : 'cV[R]_ineq_rows;
  eq_rows : nat;
  eq_F : 'M[R]_(eq_rows, n);
  eq_c : 'cV[R]_eq_rows
}.

(** Modelled from the spec: the priority aggregator is missing; the
    residual [A x - b] of a level. *)
Definition residual (l : level) (x : 'cV[R]_n) : 'cV[R]_(task_rows l) :=
  task_A l *m x - task_b l.

(** Modelled from the spec: the priority aggregator is missing; the
    squared norm [v^T v] of a vector. *)
Definition sqnorm (k : nat) (v : 'cV[R]_k) : R := (v^T *m v) 0 0.

(** Modelled from the spec: the priority aggregator is missing; the
    objective [||A x - b||^2] a level minimises. *)
Definition objective (l : level) (x : 'cV[R]_n) : R := sqnorm (residual l x).

(** Modelled from the spec: the priority aggregator is missing; the
    constraints a level brings itself, [G x <= h] and [F x = c]. *)
Definition own_constraints (l : level) (x : 'cV[R]_n) : Prop :=
  (forall i, (ineq_G l *m x) i 0 <= ineq_h l i 0) /\ eq_F l *m x = eq_c l.

(** Modelled from the spec: the priority aggregator is missing; the
    frozen equality [A_j x = A_j x_j*] a solved level imposes on the
    levels after it. *)
Definition frozen (l : level) (xs x : 'cV[R]_n) : Prop :=
  task_A l *m x = task_A l *m xs.

(** Modelled from the spec: the priority aggregator is missing; the
    levels solved so far, each with its solution, the most recently
    solved (lowest priority) first. *)
Definition solved : Type := seq (level * 'cV[R]_n).

(** Modelled from the spec: the priority aggregator is missing; [x]
    satisfies the frozen equality of every solved level. *)
Fixpoint frozen_all (prev : solved) (x : 'cV[R]_n) : Prop :=
  match prev with
  | [::] => True
  | (l, xs) :: prev' => frozen l xs x /\ frozen_all prev' x
  end.

(** Modelled from the spec: the priority aggregator is missing; [x]
    satisfies the own constraints of every solved level. *)
Fixpoint inherited_all (prev : solved) (x : 'cV[R]_n) : Prop :=
  match prev with
  | [::] => True
  | (l, _) :: prev' => own_constraints l x /\ inherited_all prev' x
  end.

(** Modelled from the spec: the priority aggregator is missing; the
    cumulative constraints of level [l] solved after [prev]: its own
    constraints, the frozen equalities and the constraints of all the
    levels of higher priority. *)
Definition feasible (prev : solved) (l : level) (x : 'cV[R]_n) : Prop :=
  own_constraints l x /\ frozen_all prev x /\ inherited_all prev x.

(** Modelled from the spec: the priority aggregator is missing; [xs]
    solves level [l] after [prev]: feasible, and of least objective among
    the feasible points. *)
Definition optimal (prev : solved) (l : level) (xs : 'cV[R]_n) : Prop :=
  feasible prev l xs /\
  forall x, feasible prev l x -> objective l xs <= objective l x.

(** Modelled from the spec: the priority aggregator is missing; a
    cascade in which every level was solved after the levels above it. *)
Fixpoint cascade (c : solved) : Prop :=
  match c with
  | [::] => True
  | (l, xs) :: prev => optimal prev l xs /\ cascade prev
  end.

End Hard.

Section Scenario.

(** Modelled from the spec: the priority aggregator is missing; the
    two-level scenario over two joint velocities.  The primary task asks
    the first velocity to be 0, the secondary task asks the second one to
    be 1; neither level has constraints of its own. *)
Definition primary : level int 2 :=
  @Level int 2 1 (delta_mx ord0 ord0) 0 0 0 0 0 0 0.

(** Modelled from the spec: the priority aggregator is missing; the
    secondary task of the scenario. *)
Definition secondary : level int 2 :=
  @Level int 2 1 (delta_mx ord0 ord_max) (const_mx 1) 0 0 0 0 0 0.

(** Modelled from the spec: the priority aggregator is missing; the
    solutions an external solver returns for the two levels. *)
Definition primary_solution : 'cV[int]_2 := 0.

Definition secondary_solution : 'cV[int]_2 := delta_mx ord_max ord0.

End Scenario.

Section Augmented.

Variable R : comRingType.
Variables m1 m2 n : nat.

(** Modelled from the spec: the priority aggregator is missing; the
    augmented task of two soft tasks: the matrices [A_i] and the vectors
    [b_i] stacked one on top of the other, the weights [W_i] stacked
    along the diagonal. *)
Definition stack_A (A1 : 'M[R]_(m1, n)) (A2 : 'M[R]_(m2, n))
  : 'M[R]_(m1 + m2, n) := col_mx A1 A2.

(** Modelled from the spec: the priority aggregator is missing; the
    stacked target vector. *)
Definition stack_b (b1 : 'cV[R]_m1) (b2 : 'cV[R]_m2) : 'cV[R]_(m1 + m2) :=
  col_mx b1 b2.

(** Modelled from the spec: the priority aggregator is missing; the
    block-diagonal weight. *)
Definition stack_W (W1 : 'M[R]_m1) (W2 : 'M[R]_m2) : 'M[R]_(m1 + m2) :=
  block_mx W1 0 0 W2.

End Augmented.

Section Bounds.

Variable R : numDomainType.
Variable n : nat.

(** Modelled from the spec: the priority aggregator is missing; the
    bounds [lb <= x <= ub] written as an inequality constraint, as the
    module docstring says: [G] is the identity on top of minus the
    identity, [h] the upper bounds on top of minus the lower bounds. *)
Definition bounds_G : 'M[R]_(n + n, n) := col_mx 1%:M (- 1%:M).

(** Modelled from the spec: the priority aggregator is missing; the
    right-hand side of the bounds written as an inequality. *)
Definition bounds_h (lb ub : 'cV[R]_n) : 'cV[R]_(n + n) := col_mx ub (- lb).

End Bounds.

End qp.

(* ===================================================================== *)
(** * Part II: theorems                                                   *)
(* ===================================================================== *)

(** ** Dictionaries and the object model *)

Section ObjectFacts.
Import Py.

Lemma dict_get_set_same (d : pydict) (k : string) (v : pyval) :
  dict_get (dict_set d k v) k = Some v.
Proof.
elim: d => [|[k' v'] d IH] /=; first by rewrite String.eqb_refl.
case E: (String.eqb k k') => /=; first by rewrite String.eqb_refl.
by rewrite E.
Qed.

Lemma dict_get_set_other (d : pydict) (k k' : string) (v : pyval) :
  String.eqb k' k = false -> dict_get (dict_set d k v) k' = dict_get d k'.
Proof.
move=> ne; elim: d => [|[k0 v0] d IH] /=; first by rewrite ne.
case E: (String.eqb k k0) => /=.
  by move/String.eqb_spec: E => <-; rewrite ne.
by rewrite IH.
Qed.

Variable class : Type.
Variable body : class -> seq (string * member class).

Lemma find_member_skip (k k' : class) (ks : seq class) (name : string) :
  body k = [::] ->
  find_member body [:: k, k' & ks] name = find_member body (k' :: ks) name.
Proof. by move=> /= ->. Qed.

Lemma find_member_last (k : class) (name : string) :
  find_member body [:: k] name = dict_get (body k) name.
Proof. by rewrite /=; case: (dict_get (body k) name). Qed.

End ObjectFacts.

(** ** constraint.py *)

Section ConstraintFacts.
Import Py.
Local Open Scope string_scope.

(** Every class of the hierarchy resolves a name to the binding of
    [Constraint], since no subclass binds anything. *)
Lemma find_in_mro (k : constraint.class) (name : string) :
  find_member constraint.body (constraint.mro k) name =
  dict_get (constraint.body constraint.Constraint) name.
Proof.
by case: k; rewrite /constraint.mro [constraint.linearize _ _]/=
     ?find_member_skip ?find_member_last.
Qed.

Lemma find_in_mro_members (k : constraint.class) (name : string) :
  find_member constraint.members (constraint.mro k) name =
  dict_get constraint.Constraint_members name.
Proof.
by case: k; rewrite /constraint.mro [constraint.linearize _ _]/=
     ?find_member_skip ?find_member_last.
Qed.

(** The constructor and the setter of [model] in closed form. *)
Lemma set_model_eq (self : constraint.obj) (v : pyval) :
  constraint.set "model" v self =
  if isinstance v "ModelInterface"
  then Ok (PyNone, Instance (cls self) (dict_set (dict self) "_model" v))
  else Raise TypeError.
Proof.
rewrite /constraint.set /setattr find_in_mro /= /constraint.model_setter.
by case: (isinstance _ _).
Qed.

Lemma new_eq (k : constraint.class) (v : pyval) :
  constraint.new k [:: v] =
  if isinstance v "ModelInterface"
  then Ok (Instance k [:: ("_model", v)])
  else Raise TypeError.
Proof.
rewrite /constraint.new /call /getattr find_in_mro /=.
rewrite /setattr find_in_mro_members /= /constraint.model_setter.
by case: (isinstance _ _).
Qed.

Lemma get_model_eq (self : constraint.obj) :
  constraint.get "model" self =
  match dict_get (dict self) "_model" with
  | Some v => Ok (Data v, self)
  | None => Raise AttributeError
  end.
Proof.
rewrite /constraint.get /getattr find_in_mro /= /constraint.model_getter /load.
by case: (dict_get _ _).
Qed.

(** A reachable instance holds its model and nothing else. *)
Lemma reachable_dict (self : constraint.obj) :
  constraint.reachable self ->
  exists2 m, dict self = [:: ("_model", m)] & isinstance m "ModelInterface".
Proof.
have upd s x r s' : (exists m, dict s = [:: ("_model", m)]) ->
    constraint.invoke "update" [:: x] s = Ok (r, s') -> s' = s.
  case=> m Hd; rewrite /constraint.invoke /call /getattr find_in_mro Hd /=.
  by case.
have cal s x r s' : (exists m, dict s = [:: ("_model", m)]) ->
    constraint.invoke "__call__" [:: x] s = Ok (r, s') -> s' = s.
  case=> m Hd; rewrite /constraint.invoke /call /getattr find_in_mro Hd /=.
  by rewrite /call /getattr find_in_mro_members Hd /=; case.
elim=> [k model s|s v r s' _ [m Hd Hm]|s x r s' _ [m Hd Hm]|s x r s' _ [m Hd Hm]].
- rewrite new_eq; case E: (isinstance _ _) => // -[<-].
  by exists model.
- rewrite set_model_eq; case E: (isinstance _ _) => // -[_ <-] /=.
  by exists v => //; rewrite Hd.
- by move=> /upd -> //; [exists m | exists m].
- by move=> /cal -> //; [exists m | exists m].
Qed.



(** An accessor reads its private field and nothing else. *)
Lemma accessor_eq (name field : string) (self : constraint.obj) :
  List.In (name, field) constraint.accessors ->
  constraint.get name self =
  match dict_get (dict self) field with
  | Some v => Ok (Data v, self)
  | None => Raise AttributeError
  end.
Proof.
rewrite /constraint.get /getattr find_in_mro /constraint.accessors => H.
by repeat (case: H => [[<- <-]|H];
     first by rewrite /= /constraint.lower_bound /constraint.upper_bound
       /constraint.A_eq /constraint.b_eq /constraint.A_ineq
       /constraint.b_lower_bound /constraint.b_upper_bound /load;
       case: (dict_get (dict self) _)).
Qed.



End ConstraintFacts.

Section ConstraintClaims.
Import Py.
Local Open Scope string_scope.

(** C1, at the failing input.  [EqualityConstraint.is_equality_constraint()]
    returns [False]: the class binds nothing and the predicate of the
    base class is found.  The same holds of the three predicates on every
    class of the hierarchy, none of which reports a classification. *)
Theorem EqualityConstraint_is_not_reported :
  constraint.static constraint.EqualityConstraint "is_equality_constraint"
    = Ok (PyBool false) /\
  forall k, constraint.classification k = Some (false, false, false).
Proof. by split=> // -[]. Qed.

(** C4.  Building a constraint of any class, or assigning its [model]
    property, with a value that is not an instance of [ModelInterface]
    raises [TypeError]; with an instance of [ModelInterface] both succeed
    and [model] then reads back exactly the value passed. *)
Theorem model_must_be_ModelInterface (k : constraint.class) (v : pyval) :
  (~~ isinstance v "ModelInterface" ->
     constraint.new k [:: v] = Raise TypeError /\
     forall self, constraint.set "model" v self = Raise TypeError) /\
  (isinstance v "ModelInterface" ->
     (exists2 self, constraint.new k [:: v] = Ok self &
        constraint.get "model" self = Ok (Data v, self)) /\
     (forall self, exists2 self',
        constraint.set "model" v self = Ok (PyNone, self') &
        constraint.get "model" self' = Ok (Data v, self'))).
Proof.
split=> [/negbTE|] Hv.
  by split=> [|self]; rewrite ?new_eq ?set_model_eq Hv.
split=> [|self].
  exists (Instance k [:: ("_model", v)]); first by rewrite new_eq Hv.
  by rewrite get_model_eq.
exists (Instance (cls self) (dict_set (dict self) "_model" v)).
  by rewrite set_model_eq Hv.
by rewrite get_model_eq /= dict_get_set_same.
Qed.

Lemma model_must_be_ModelInterface_witness :
  constraint.new constraint.UnilateralConstraint [:: PyInt 3]
    = Raise TypeError /\
  exists2 self,
    constraint.new constraint.UnilateralConstraint [:: constraint.a_model]
      = Ok self &
    constraint.get "model" self = Ok (Data constraint.a_model, self).
Proof.
split.
  by have [H _] := model_must_be_ModelInterface
                     constraint.UnilateralConstraint (PyInt 3);
     have [] := H isT.
by have [_ H] := model_must_be_ModelInterface
                   constraint.UnilateralConstraint constraint.a_model;
   have [] := H isT.
Defined.

(** C5, at the failing input.  On [JointVelocityConstraint(model)] the
    accessor [A_ineq] raises [AttributeError] before [update], as the
    claim says; [update(x)] then leaves the instance as it was, and
    [A_ineq] raises [AttributeError] once more instead of returning a
    value. *)
Theorem A_ineq_raises_after_update :
  exists2 self,
    constraint.new constraint.JointVelocityConstraint [:: constraint.a_model]
      = Ok self &
    [/\ constraint.get "A_ineq" self = Raise AttributeError,
        constraint.after_update constraint.some_x self = Ok self &
        constraint.read_after_update "A_ineq" constraint.some_x self
          = Raise AttributeError].
Proof.
by exists (Instance constraint.JointVelocityConstraint
                   [:: ("_model", constraint.a_model)]).
Qed.



(** C7.  On every instance of every class of the hierarchy, reading [G],
    [h], [F] or [c] returns [None] and leaves the instance untouched:
    nothing is raised and nothing is computed. *)
Theorem standard_form_is_None (self : constraint.obj) (name : string) :
  List.In name constraint.standard_form ->
  constraint.get name self = Ok (Data PyNone, self).
Proof.
rewrite /constraint.standard_form /constraint.get /getattr find_in_mro => H.
by repeat (case: H => [<-|H] //).
Qed.

Lemma standard_form_is_None_witness :
  constraint.get "G"
    (Instance constraint.BoundConstraint [:: ("_model", constraint.a_model)])
  = Ok (Data PyNone,
        Instance constraint.BoundConstraint
          [:: ("_model", constraint.a_model)]).
Proof.
apply: standard_form_is_None.
by rewrite /constraint.standard_form /=; left.
Defined.

End ConstraintClaims.

(** ** approximator.py *)

Section ApproximatorClaims.
Import Py.
Local Open Scope string_scope.

Lemma approximator_set_model_eq (self : approximator.obj) (model : pyval) :
  approximator.set "model" model self = approximator.model_setter model self.
Proof. by case: self => -[] d. Qed.

(** What the setter of [model] does: [None] is stored as it is; another
    value needs inputs and outputs that are not [None], else [ValueError];
    it is then stored as soon as its [input_shape] can be read, and no
    shape is compared with any other. *)
Lemma model_setter_cases (self : approximator.obj) (model : pyval) :
  let stored :=
    Ok (PyNone, Instance (cls self) (dict_set (dict self) "_model" model)) in
  approximator.set "model" model self =
  if is_None model then stored
  else match dict_get (dict self) "_inputs" with
       | None => Raise AttributeError
       | Some i =>
           if is_None i then Raise ValueError
           else match dict_get (dict self) "_outputs" with
                | None => Raise AttributeError
                | Some o =>
                    if is_None o then Raise ValueError
                    else match attr_of model "input_shape" with
                         | Ok _ => stored
                         | Raise e => Raise e
                         end
                end
       end.
Proof.
rewrite approximator_set_model_eq /approximator.model_setter /bind /load /=.
case: (is_None model) => //=.
case: (dict_get (dict self) "_inputs") => [i|] //.
case: (is_None i) => //=.
case: (dict_get (dict self) "_outputs") => [o|] //.
case: (is_None o) => //=.
by rewrite /lift; case: (attr_of model "input_shape").
Qed.

(** C8, at the failing input.  An approximator declared with an input of
    shape (3,) and an output of shape (2,) accepts a model whose shapes
    are (5,) and (7,): the shapes disagree, the assignment succeeds and
    the model is stored; no [ValueError] is raised. *)
Theorem mismatched_model_is_accepted :
  exists2 self,
    approximator.new [:: approximator.array_of_shape [:: 3%Z];
                         approximator.array_of_shape [:: 2%Z]] = Ok self &
    approximator.shapes_agree self
      (approximator.model_of_shapes [:: 5%Z] [:: 7%Z]) = false /\
    exists2 self',
      approximator.set "model"
        (approximator.model_of_shapes [:: 5%Z] [:: 7%Z]) self
        = Ok (PyNone, self') &
      approximator.get "model" self'
        = Ok (Data (approximator.model_of_shapes [:: 5%Z] [:: 7%Z]), self').
Proof.
eexists; first by vm_compute; reflexivity.
split; first by vm_compute.
by eexists; vm_compute; reflexivity.
Qed.

End ApproximatorClaims.

(** ** manipulator.py *)

Section ManipulatorClaims.
Import Py.
Local Open Scope string_scope.

Variable Robot : Type.
Variable Robot_init : seq pyval -> result Robot.
Variable get_link_ids : Robot -> pyval -> result pyval.

Lemma get_ids_other (r : Robot) (links : seq pyval) (v : pyval) :
  ~~ is_None v ->
  ~~ isinstance_any v [:: "int"; "str"; "list"; "tuple"] ->
  manipulator.get_ids get_link_ids r links v = Ok (PyList links).
Proof.
rewrite /manipulator.get_ids /isinstance_any /= orbF => -> /=.
by rewrite !negb_or => /and4P [/negbTE -> /negbTE -> /negbTE -> /negbTE ->].
Qed.

(** C9.  An argument that is neither [None] nor an instance of [int],
    [str], [list] or [tuple] raises nothing: [get_arm_ids] returns the
    whole list of arms and [get_hand_ids] the whole list of hands, as
    they do for [None]. *)
Theorem other_argument_returns_all
  (self : manipulator.ManipulatorRobot Robot) (v : pyval) :
  ~~ is_None v ->
  ~~ isinstance_any v [:: "int"; "str"; "list"; "tuple"] ->
  [/\ manipulator.get_arm_ids get_link_ids self v
        = Ok (PyList (manipulator.arms self)),
      manipulator.get_arm_ids get_link_ids self v
        = manipulator.get_arm_ids get_link_ids self PyNone,
      manipulator.get_hand_ids get_link_ids self v
        = Ok (PyList (manipulator.hands self)) &
      manipulator.get_hand_ids get_link_ids self v
        = manipulator.get_hand_ids get_link_ids self PyNone].
Proof.
move=> Hn Hi; rewrite /manipulator.get_arm_ids /manipulator.get_hand_ids.
by rewrite !(get_ids_other _ _ Hn Hi); split.
Qed.

End ManipulatorClaims.

Lemma other_argument_returns_all_witness :
  manipulator.get_arm_ids (fun (_ : unit) _ => Py.Raise Py.ValueError)
    (manipulator.Manipulator tt [:: Py.PyInt 4; Py.PyInt 9] [:: Py.PyInt 11])
    (Py.PyFloat 3 (-1))
  = Py.Ok (Py.PyList [:: Py.PyInt 4; Py.PyInt 9]).
Proof.
by have [] := @other_argument_returns_all unit
     (fun _ _ => Py.Raise Py.ValueError)
     (manipulator.Manipulator tt [:: Py.PyInt 4; Py.PyInt 9] [:: Py.PyInt 11])
     (Py.PyFloat 3 (-1)) isT isT.
Defined.

Section BiManipulatorClaims.
Import Py.
Local Open Scope string_scope.

Variable Robot : Type.
Variable Robot_init : seq pyval -> result Robot.

(** Indexing the list of the first [n] integers: every index in range,
    counted from either end, returns its own position. *)
Lemma numbered_getitem (n : nat) (z : Z) :
  let k := if (z <? 0)%Z then (z + Z.of_nat n)%Z else z in
  (0 <= k < Z.of_nat n)%Z ->
  list_getitem (manipulator.numbered n) (PyInt z) = Ok (PyInt k).
Proof.
move=> k Hk; rewrite /list_getitem /= size_map size_iota -/k.
have -> : (0 <=? k)%Z && (k <? Z.of_nat n)%Z.
  by apply/andP; split; [apply/Z.leb_spec0 | apply/Z.ltb_spec0]; lia.
have Hlt : (Z.to_nat k < n)%N by apply/ltP; lia.
rewrite /manipulator.numbered (nth_map 0%N) ?size_iota // nth_iota // add0n.
by rewrite Z2Nat.id //; lia.
Qed.

(** Two different indices are told apart by some list of hands. *)
Lemma indices_told_apart (a b : Z) :
  a <> b ->
  exists hs, list_getitem hs (PyInt a) <> list_getitem hs (PyInt b).
Proof.
move=> ne; pose n := Z.to_nat (Z.abs a + Z.abs b + 1).
have Hn : Z.of_nat n = (Z.abs a + Z.abs b + 1)%Z by rewrite /n; lia.
have Hr z : (Z.abs z < Z.of_nat n)%Z ->
    (0 <= (if (z <? 0)%Z then (z + Z.of_nat n)%Z else z) < Z.of_nat n)%Z.
  by case: Z.ltb_spec; lia.
exists (manipulator.numbered n).
rewrite !numbered_getitem; try (apply: Hr; lia).
by case; case: Z.ltb_spec; case: Z.ltb_spec; lia.
Qed.

(** C10 (as amended).  [right_hand] indexes the list of hands with
    [right_arm_id], not with [right_hand_id], and [left_hand] with
    [left_hand_id].  [right_hand] agrees with [hands[right_hand_id]] on
    every list of hands exactly when the two indices are equal.  The
    constructor, when the one of the base class returns, builds the
    robot with no arm, no hand and the indices 0, 0, 1, 1: both are 1. *)
Theorem right_hand_reads_right_arm_id
  (self : manipulator.BiManipulatorRobot Robot) :
  [/\ manipulator.right_hand self =
        list_getitem (manipulator.hands (manipulator.manip self))
                     (PyInt (manipulator.right_arm_id self)),
      manipulator.left_hand self =
        list_getitem (manipulator.hands (manipulator.manip self))
                     (PyInt (manipulator.left_hand_id self)),
      (forall hs,
         manipulator.right_hand (manipulator.with_hands self hs) =
         list_getitem hs (PyInt (manipulator.right_hand_id self))) <->
      manipulator.right_hand_id self = manipulator.right_arm_id self &
      forall args,
        manipulator.BiManipulatorRobot_init Robot_init args =
        match Robot_init args with
        | Ok r =>
            Ok (manipulator.BiManipulator
                  (manipulator.Manipulator r [::] [::]) 0 0 1 1)
        | Raise e => Raise e
        end].
Proof.
split=> //.
- split=> [H|E hs]; last by rewrite /manipulator.right_hand /= E.
  case: (Z.eq_dec (manipulator.right_hand_id self)
                  (manipulator.right_arm_id self)) => // ne.
  have [hs []] := indices_told_apart ne.
  by rewrite -H.
- move=> args; rewrite /manipulator.BiManipulatorRobot_init
                       /manipulator.ManipulatorRobot_init.
  by case: (Robot_init args).
Qed.

End BiManipulatorClaims.

(** C10, as first stated, fails: on a robot with the hands [10, 20],
    whose right arm has index 1 and whose right hand has index -1, the
    two indices differ and [right_hand] is [hands[right_hand_id]] all
    the same. *)
Lemma right_hand_agrees_with_unequal_ids :
  manipulator.right_hand_id manipulator.crossed
    <> manipulator.right_arm_id manipulator.crossed /\
  manipulator.right_hand manipulator.crossed =
  Py.list_getitem
    (manipulator.hands (manipulator.manip manipulator.crossed))
    (Py.PyInt (manipulator.right_hand_id manipulator.crossed)).
Proof. by []. Qed.

Lemma right_hand_reads_right_arm_id_witness :
  manipulator.right_hand
    (manipulator.BiManipulator
       (manipulator.Manipulator tt [::] [:: Py.PyInt 10; Py.PyInt 20])
       0 0 1 0)
  = Py.Ok (Py.PyInt 20) /\
  manipulator.BiManipulatorRobot_init (fun _ => Py.Ok tt) [::]
  = Py.Ok (manipulator.BiManipulator
             (manipulator.Manipulator tt [::] [::]) 0 0 1 1).
Proof.
split.
  by have [-> _ _ _] := @right_hand_reads_right_arm_id unit
       (fun _ => Py.Ok tt)
       (manipulator.BiManipulator
          (manipulator.Manipulator tt [::] [:: Py.PyInt 10; Py.PyInt 20])
          0 0 1 0).
have [_ _ _ H] := @right_hand_reads_right_arm_id unit (fun _ => Py.Ok tt)
  (manipulator.BiManipulator (manipulator.Manipulator tt [::] [::]) 0 0 1 1).
exact: (H [::]).
Defined.

(** ** The quadratic programs *)

Section SoftFacts.
Import GRing.Theory.
Local Open Scope ring_scope.

Variable R : comRingType.
Variables m n : nat.

(** A one-by-one matrix is its own transpose. *)
Lemma scalar_trmx (M : 'M[R]_1) : M^T = M.
Proof. by apply/matrixP=> i j; rewrite mxE !ord1. Qed.

Lemma expand_square (P C B : 'M[R]_1) :
  (P - C - (C - B)) 0 0 = P 0 0 + ((- 2%:R) *: C) 0 0 + B 0 0.
Proof. by rewrite !mxE mulNr mulr_natl mulr2n !opprD opprK !addrA. Qed.

Lemma weighted_sqnorm_expand (A : 'M[R]_(m, n)) (W : 'M[R]_m)
  (b : 'cV[R]_m) (x : 'cV[R]_n) :
  W^T = W ->
  qp.weighted_sqnorm W (A *m x - b) =
  qp.quadratic_form (qp.soft_Q A W) (qp.soft_p A W b) x +
  qp.weighted_sqnorm W b.
Proof.
move=> symW.
rewrite /qp.weighted_sqnorm /qp.quadratic_form /qp.soft_Q /qp.soft_p.
have cross : x^T *m A^T *m W *m b = b^T *m W *m A *m x.
  by rewrite -[LHS]scalar_trmx !trmx_mul !trmxK symW !mulmxA.
have -> : (A *m x - b)^T = x^T *m A^T - b^T by rewrite linearB /= trmx_mul.
have -> : (-2 *: (A^T *m W *m b))^T = -2 *: (b^T *m W *m A).
  by rewrite linearZ /= !trmx_mul trmxK symW mulmxA.
rewrite !mulmxBl !mulmxBr !mulmxA cross -scalemxAl.
exact: expand_square.
Qed.

Lemma soft_p_linear_split (A : 'M[R]_(m, n)) (W : 'M[R]_m) (b : 'cV[R]_m)
  (c x : 'cV[R]_n) :
  qp.quadratic_form (qp.soft_Q A W) (qp.soft_p_linear A W b c) x =
  qp.quadratic_form (qp.soft_Q A W) (qp.soft_p A W b) x + (c^T *m x) 0 0.
Proof.
rewrite /qp.quadratic_form /qp.soft_p_linear /qp.soft_p -addrA; congr (_ + _).
set u := A^T *m W *m b.
have -> : c - 2 *: u = -2 *: u + c by rewrite scaleNr addrC.
by rewrite [(_ + _)^T]linearD /= mulmxDl mxE.
Qed.

(** C3.  For a symmetric weight [W] the weighted objective of a soft task
    is its standard form plus a term that does not mention [x]:
    [||A x - b||^2_W = x^T Q x + p^T x + b^T W b] with [Q = A^T W A] and
    [p = -2 A^T W b]; with the linear term [c^T x] added to the cost the
    same holds with [p = c - 2 A^T W b].  Nothing more than the symmetry
    of [W] is needed. *)
Theorem soft_task_standard_form (A : 'M[R]_(m, n)) (W : 'M[R]_m)
  (b : 'cV[R]_m) (c x : 'cV[R]_n) :
  W^T = W ->
  qp.weighted_sqnorm W (A *m x - b) =
    qp.quadratic_form (qp.soft_Q A W) (qp.soft_p A W b) x +
    qp.weighted_sqnorm W b /\
  qp.weighted_sqnorm W (A *m x - b) + (c^T *m x) 0 0 =
    qp.quadratic_form (qp.soft_Q A W) (qp.soft_p_linear A W b c) x +
    qp.weighted_sqnorm W b.
Proof.
move=> symW; split; first exact: weighted_sqnorm_expand.
by rewrite soft_p_linear_split weighted_sqnorm_expand // addrAC.
Qed.

End SoftFacts.

Section SoftWitness.
Local Open Scope ring_scope.

Lemma soft_task_standard_form_witness :
  let A : 'M[int]_2 := 1%:M in
  let W : 'M[int]_2 := 2%:M in
  let b : 'cV[int]_2 := const_mx 1 in
  let x : 'cV[int]_2 := const_mx 3 in
  qp.weighted_sqnorm W (A *m x - b) =
    qp.quadratic_form (qp.soft_Q A W) (qp.soft_p A W b) x +
    qp.weighted_sqnorm W b.
Proof.
move=> A W b x.
have [H _] := @soft_task_standard_form _ 2 2 A W b 0 x (tr_scalar_mx _ _).
exact: H.
Defined.

End SoftWitness.

Section HardFacts.
Import GRing.Theory Num.Theory.
Local Open Scope ring_scope.

Variable R : numDomainType.
Variable n : nat.

Implicit Types (l : qp.level R n) (x xs : 'cV[R]_n) (prev : qp.solved R n).

(** A point that satisfies the frozen equality of a level leaves the
    residual of that level as its solution had it. *)
Lemma frozen_residual l xs x :
  qp.frozen l xs x -> qp.residual l x = qp.residual l xs.
Proof. by rewrite /qp.frozen /qp.residual => ->. Qed.

Lemma frozen_objective l xs x :
  qp.frozen l xs x -> qp.objective l x = qp.objective l xs.
Proof. by rewrite /qp.objective => /frozen_residual ->. Qed.

Lemma frozen_all_split later l xs earlier x :
  qp.frozen_all (later ++ (l, xs) :: earlier) x ->
  qp.frozen l xs x /\ qp.frozen_all earlier x.
Proof. by elim: later => [|[l' xs'] later IH] //= [_ /IH]. Qed.

Lemma inherited_all_split later l xs earlier x :
  qp.inherited_all (later ++ (l, xs) :: earlier) x ->
  qp.own_constraints l x /\ qp.inherited_all earlier x.
Proof. by elim: later => [|[l' xs'] later IH] //= [_ /IH]. Qed.

(** The constraints only accumulate: a point feasible for a level is
    feasible for every level of higher priority. *)
Lemma feasible_earlier later l xs earlier l' x :
  qp.feasible (later ++ (l, xs) :: earlier) l' x -> qp.feasible earlier l x.
Proof.
by case=> _ [/frozen_all_split [_ Hf] /inherited_all_split [Ho Hi]]; split.
Qed.

Lemma cascade_split later l xs earlier :
  qp.cascade (later ++ (l, xs) :: earlier) -> qp.optimal earlier l xs.
Proof. by elim: later => [|[l' xs'] later IH] /= [] // _ /IH. Qed.

(** C2.  Let [(lj, xj)] be any level of higher priority among the solved
    levels [prev].  A point [x] that satisfies the frozen equalities of
    [prev] has at level [lj] the residual, hence the objective
    [||A_j x - b_j||^2], that [xj] had.  And when the cascade, level [l]
    with its solution [x] included, was solved level by level, [x] is
    itself optimal for [lj] under the constraints [lj] was solved with:
    solving [l] degrades no level above it. *)
Theorem hard_priority_preserved prev later earlier lj xj l x :
  prev = later ++ (lj, xj) :: earlier ->
  (qp.frozen_all prev x ->
   qp.residual lj x = qp.residual lj xj /\
   qp.objective lj x = qp.objective lj xj) /\
  (qp.cascade ((l, x) :: prev) -> qp.optimal earlier lj x).
Proof.
move=> ->; split=> [/frozen_all_split [Hf _]|/= [[Hx _] Hc]].
  by split; [exact: frozen_residual Hf | exact: frozen_objective Hf].
have [Hxj Hmin] := cascade_split Hc.
have [_ [/frozen_all_split [Hf _] _]] := Hx.
split; first exact: feasible_earlier Hx.
by move=> y /Hmin; rewrite (frozen_objective Hf).
Qed.

End HardFacts.

Section OrderedFacts.
Import GRing.Theory Num.Theory.
Local Open Scope ring_scope.

Variable R : realDomainType.
Variable n : nat.

Implicit Types (l : qp.level R n) (x : 'cV[R]_n) (prev : qp.solved R n).

(** An objective is a sum of squares. *)
Lemma objective_ge0 l x : 0 <= qp.objective l x.
Proof.
rewrite /qp.objective; move: (qp.residual l x) => v.
rewrite /qp.sqnorm mxE; apply: sumr_ge0 => i _.
by rewrite [v^T _ _]mxE -expr2 sqr_ge0.
Qed.

Lemma zero_objective_optimal prev l x :
  qp.feasible prev l x -> qp.objective l x = 0 -> qp.optimal prev l x.
Proof. by move=> Hf H0; split=> // y _; rewrite H0 objective_ge0. Qed.


End OrderedFacts.

Section HardWitness.
Import GRing.Theory Num.Theory.
Local Open Scope ring_scope.

Lemma unconstrained (x : 'cV[int]_2) :
  qp.own_constraints qp.primary x /\ qp.own_constraints qp.secondary x.
Proof. by split; split; [case | apply/matrixP; case | case | apply/matrixP; case]. Qed.

Lemma scenario_is_a_cascade :
  qp.cascade [:: (qp.secondary, qp.secondary_solution);
                 (qp.primary, qp.primary_solution)].
Proof.
have Hfrozen : qp.frozen qp.primary qp.primary_solution qp.secondary_solution.
  rewrite /qp.frozen /qp.primary_solution /qp.secondary_solution /= mulmx0.
  by rewrite mul_delta_mx_0.
split; last split=> //.
- apply: zero_objective_optimal.
    by split; [exact: (unconstrained _).2 | split; split=> //;
               exact: (unconstrained _).1].
  rewrite /qp.objective /qp.residual /qp.secondary_solution /= mul_delta_mx.
  have -> : delta_mx ord0 ord0 - const_mx 1 = 0 :> 'cV[int]_1.
    by apply/matrixP=> i j; rewrite !mxE !ord1 /= subrr.
  by rewrite /qp.sqnorm mulmx0 mxE.
- apply: zero_objective_optimal.
    by split; [exact: (unconstrained _).1 | split].
  rewrite /qp.objective /qp.residual /qp.primary_solution /= mulmx0 subr0.
  by rewrite /qp.sqnorm mulmx0 mxE.
Qed.

Lemma hard_priority_preserved_witness :
  qp.objective qp.primary qp.secondary_solution =
    qp.objective qp.primary qp.primary_solution /\
  qp.optimal [::] qp.primary qp.secondary_solution.
Proof.
have [H1 H2] :=
  @hard_priority_preserved int 2
    [:: (qp.primary, qp.primary_solution)] [::] [::]
    qp.primary qp.primary_solution qp.secondary qp.secondary_solution erefl.
split; last exact: H2 scenario_is_a_cascade.
have [[Hf _] _] := scenario_is_a_cascade.
by have [_ ->] := H1 Hf.2.1.
Defined.

End HardWitness.

(* ===================================================================== *)
(** * Part III: further properties of the code                            *)
(* ===================================================================== *)

(** Choosing an entry of a list given in full. *)
Ltac choose_entry := solve [repeat (first [left; reflexivity | right])].

(** ** constraint.py *)

Section ConstraintExtras.
Import Py.
Local Open Scope string_scope.

(** No accessor reads the field of the model. *)
Lemma accessor_field_not_model (name field : string) :
  List.In (name, field) constraint.accessors ->
  String.eqb field "_model" = false.
Proof.
by rewrite /constraint.accessors => H; repeat (case: H => [[_ <-]|H] //).
Qed.

(** X1.  Whatever sequence of constructions, assignments to [model],
    updates and calls produced an instance, its [model] property reads
    a value, and that value is an instance of [ModelInterface]. *)
Theorem reachable_model_is_ModelInterface (self : constraint.obj) :
  constraint.reachable self ->
  exists2 m, constraint.get "model" self = Ok (Data m, self) &
             isinstance m "ModelInterface".
Proof.
move=> /reachable_dict [m Hd Hm]; exists m => //.
by rewrite get_model_eq Hd.
Qed.

Lemma reachable_model_is_ModelInterface_witness :
  exists2 m,
    constraint.get "model"
      (Instance constraint.DynamicConstraint
                [:: ("_model", constraint.a_model)])
    = Ok (Data m, Instance constraint.DynamicConstraint
                           [:: ("_model", constraint.a_model)]) &
    isinstance m "ModelInterface".
Proof.
apply: reachable_model_is_ModelInterface.
exact: (@constraint.reach_new constraint.DynamicConstraint
          constraint.a_model).
Defined.

(** X2.  Assigning the [model] property, when it succeeds, changes what
    none of the seven accessors reads. *)
Theorem set_model_keeps_accessors
  (self self' : constraint.obj) (v r : pyval) (name field : string) :
  List.In (name, field) constraint.accessors ->
  constraint.set "model" v self = Ok (r, self') ->
  outcome (constraint.get name self') = outcome (constraint.get name self).
Proof.
move=> Hin; rewrite set_model_eq; case: (isinstance _ _) => // -[_ <-].
rewrite !(accessor_eq _ Hin) /= dict_get_set_other.
  exact: accessor_field_not_model Hin.
by case: (dict_get (dict self) field).
Qed.

Lemma set_model_keeps_accessors_witness :
  outcome (constraint.get "b_eq"
             (Instance constraint.EqualityConstraint
                [:: ("_b_eq", constraint.some_x);
                    ("_model", constraint.a_model)])) =
  outcome (constraint.get "b_eq"
             (Instance constraint.EqualityConstraint
                [:: ("_b_eq", constraint.some_x)])).
Proof.
apply: (@set_model_keeps_accessors
          (Instance constraint.EqualityConstraint
                    [:: ("_b_eq", constraint.some_x)])
          _ constraint.a_model PyNone "b_eq" "_b_eq") => //.
by rewrite /constraint.accessors /=; choose_entry.
Defined.

(** X3.  [b_ineq_lower] is a read-only alias of [b_lower_bound]: in every
    state both read the private field [_b_lower_bound], and the alias
    cannot be assigned. *)
Theorem b_ineq_lower_is_alias (self : constraint.obj) :
  constraint.get "b_ineq_lower" self = constraint.get "b_lower_bound" self /\
  constraint.get "b_ineq_lower" self =
    match dict_get (dict self) "_b_lower_bound" with
    | Some v => Ok (Data v, self)
    | None => Raise AttributeError
    end /\
  forall v, constraint.set "b_ineq_lower" v self = Raise AttributeError.
Proof.
rewrite /constraint.get /constraint.set /getattr /setattr !find_in_mro /=.
by rewrite /constraint.b_lower_bound /load;
   case: (dict_get (dict self) "_b_lower_bound").
Qed.

(** X4.  [is_unilateral_constraint()] and [is_bilateral_constraint()]
    return [False] on every class of the hierarchy, [UnilateralConstraint]
    and [BilateralConstraint] included. *)
Theorem shape_predicates_are_False (k : constraint.class) (name : string) :
  List.In name constraint.shape_predicates ->
  constraint.static k name = Ok (PyBool false).
Proof.
rewrite /constraint.shape_predicates /constraint.static /class_call.
by rewrite find_in_mro => H; repeat (case: H => [<-|H] //).
Qed.

Lemma shape_predicates_are_False_witness :
  constraint.static constraint.UnilateralConstraint "is_unilateral_constraint"
  = Ok (PyBool false).
Proof.
apply: shape_predicates_are_False.
by rewrite /constraint.shape_predicates /=; choose_entry.
Defined.

(** X5.  [G], [h], [F] and [c] are read-only: assigning any of them on
    any instance raises [AttributeError]. *)
Theorem standard_form_is_read_only
  (self : constraint.obj) (name : string) (v : pyval) :
  List.In name constraint.standard_form ->
  constraint.set name v self = Raise AttributeError.
Proof.
rewrite /constraint.standard_form /constraint.set /setattr find_in_mro => H.
by repeat (case: H => [<-|H] //).
Qed.

Lemma standard_form_is_read_only_witness :
  constraint.set "h" constraint.some_x
    (Instance constraint.BilateralConstraint
              [:: ("_model", constraint.a_model)])
  = Raise AttributeError.
Proof.
apply: standard_form_is_read_only.
by rewrite /constraint.standard_form /=; choose_entry.
Defined.

(** X6.  The private field behind an accessor can be assigned on any
    instance (this is how an [update] of a subclass publishes its
    result); the accessor then returns exactly the value assigned, and
    the accessors of the other fields read what they read before. *)
Theorem private_field_round_trip
  (self : constraint.obj) (name field : string) (v : pyval) :
  List.In (name, field) constraint.accessors ->
  exists2 self',
    constraint.set field v self = Ok (PyNone, self') &
    constraint.get name self' = Ok (Data v, self') /\
    forall name' field',
      List.In (name', field') constraint.accessors ->
      String.eqb field' field = false ->
      outcome (constraint.get name' self') =
      outcome (constraint.get name' self).
Proof.
move=> Hin.
exists (Instance (cls self) (dict_set (dict self) field v)).
  rewrite /constraint.set /setattr find_in_mro.
  by move: Hin; rewrite /constraint.accessors => H;
     repeat (case: H => [[_ <-]|H] //).
split; first by rewrite (accessor_eq _ Hin) /= dict_get_set_same.
move=> name' field' Hin' ne.
rewrite !(accessor_eq _ Hin') /= dict_get_set_other //.
by case: (dict_get (dict self) field').
Qed.

Lemma private_field_round_trip_witness :
  exists2 self',
    constraint.set "_A_ineq" constraint.some_x
      (Instance constraint.UnilateralConstraint
                [:: ("_model", constraint.a_model)]) = Ok (PyNone, self') &
    constraint.get "A_ineq" self' = Ok (Data constraint.some_x, self').
Proof.
have Hin : List.In ("A_ineq", "_A_ineq") constraint.accessors.
  by rewrite /constraint.accessors /=; choose_entry.
have [self' H1 [H2 _]] :=
  private_field_round_trip
    (Instance constraint.UnilateralConstraint
              [:: ("_model", constraint.a_model)])
    constraint.some_x Hin.
by exists self'.
Defined.

End ConstraintExtras.

(** ** approximator.py *)

Section ApproximatorExtras.
Import Py.
Local Open Scope string_scope.

(** The five validated properties are set through their setters. *)
Lemma set_inputs_eq (self : approximator.obj) (v : pyval) :
  approximator.set "inputs" v self = approximator.inputs_setter v self.
Proof. by case: self => -[] d. Qed.

Lemma set_outputs_eq (self : approximator.obj) (v : pyval) :
  approximator.set "outputs" v self = approximator.outputs_setter v self.
Proof. by case: self => -[] d. Qed.

Lemma set_preprocessors_eq (self : approximator.obj) (v : pyval) :
  approximator.set "preprocessors" v self =
  approximator.processors_setter "_preprocessors" v self.
Proof. by case: self => -[] d. Qed.

Lemma set_postprocessors_eq (self : approximator.obj) (v : pyval) :
  approximator.set "postprocessors" v self =
  approximator.processors_setter "_postprocessors" v self.
Proof. by case: self => -[] d. Qed.

(** The setters of [inputs] and [outputs] in closed form. *)
Lemma inputs_setter_eq (self : approximator.obj) (v : pyval) :
  approximator.inputs_setter v self =
  if is_None v then store "_inputs" v self
  else if approximator.accepted_io v then
    match dict_get (dict self) "_model" with
    | Some _ => store "_inputs" (approximator.stored_io v) self
    | None => Raise AttributeError
    end
  else Raise TypeError.
Proof.
rewrite /approximator.inputs_setter /approximator.accepted_io
        /approximator.stored_io /bind /load /ret /raise.
case: (is_None v) => //=.
by case: (isinstance v "int"); case: (isinstance v "float");
   case: (isinstance v "State"); case: (isinstance v "Action");
   case: (isinstance v "Tensor"); case: (isinstance v "ndarray") => //=;
   case: (dict_get (dict self) "_model").
Qed.

Lemma outputs_setter_eq (self : approximator.obj) (v : pyval) :
  approximator.outputs_setter v self =
  if is_None v then store "_outputs" v self
  else if approximator.accepted_io v then
    match dict_get (dict self) "_model" with
    | Some _ => store "_outputs" (approximator.stored_io v) self
    | None => Raise AttributeError
    end
  else Raise TypeError.
Proof.
rewrite /approximator.outputs_setter /approximator.accepted_io
        /approximator.stored_io /bind /load /ret /raise.
case: (is_None v) => //=.
by case: (isinstance v "int"); case: (isinstance v "float");
   case: (isinstance v "State"); case: (isinstance v "Action");
   case: (isinstance v "Tensor"); case: (isinstance v "ndarray") => //=;
   case: (dict_get (dict self) "_model").
Qed.

Lemma stored_io_None (v : pyval) :
  is_None (approximator.stored_io v) = is_None v.
Proof.
rewrite /approximator.stored_io.
destruct (is_None v) eqn:En; first by rewrite En.
by cbn [negb andb]; destruct (isinstance_any v _).
Qed.

Lemma stored_io_of_None (v : pyval) :
  is_None v -> approximator.stored_io v = v.
Proof. by rewrite /approximator.stored_io => ->. Qed.

Lemma accepted_io_None (v : pyval) : is_None v -> approximator.accepted_io v.
Proof. by rewrite /approximator.accepted_io => ->. Qed.

(** Once [_model] exists, as it does from the first statement of
    [__init__] on, the two setters either store or raise [TypeError]. *)
Lemma inputs_setter_with_model (self : approximator.obj) (v m0 : pyval) :
  dict_get (dict self) "_model" = Some m0 ->
  approximator.inputs_setter v self =
  if approximator.accepted_io v
  then store "_inputs" (approximator.stored_io v) self
  else Raise TypeError.
Proof.
move=> Hm; rewrite inputs_setter_eq Hm.
case En: (is_None v) => //.
by rewrite accepted_io_None // stored_io_of_None.
Qed.

Lemma outputs_setter_with_model (self : approximator.obj) (v m0 : pyval) :
  dict_get (dict self) "_model" = Some m0 ->
  approximator.outputs_setter v self =
  if approximator.accepted_io v
  then store "_outputs" (approximator.stored_io v) self
  else Raise TypeError.
Proof.
move=> Hm; rewrite outputs_setter_eq Hm.
case En: (is_None v) => //.
by rewrite accepted_io_None // stored_io_of_None.
Qed.

(** Inside [__init__] the same setters are reached. *)
Lemma init_set_eq (self : approximator.obj) (v : pyval) :
  [/\ setattr approximator.mro approximator.members "inputs" v self
        = approximator.inputs_setter v self,
      setattr approximator.mro approximator.members "outputs" v self
        = approximator.outputs_setter v self,
      setattr approximator.mro approximator.members "preprocessors" v self
        = approximator.processors_setter "_preprocessors" v self,
      setattr approximator.mro approximator.members "postprocessors" v self
        = approximator.processors_setter "_postprocessors" v self &
      setattr approximator.mro approximator.members "model" v self
        = approximator.model_setter v self].
Proof. by case: self => -[] d. Qed.

(** The constructor up to its last statement. *)
Lemma new_eq3 (i o m : pyval) :
  approximator.new [:: i; o; m] =
  if approximator.accepted_io i && approximator.accepted_io o then
    match approximator.model_setter m (approximator.built i o) with
    | Ok (_, self) => Ok self
    | Raise e => Raise e
    end
  else Raise TypeError.
Proof.
rewrite /approximator.new /call /getattr.
rewrite [find_member _ _ _]/= [dict_get (dict _) _]/=; lazy beta iota.
rewrite /approximator.__init__ /approximator.init_body /bind /store.
lazy beta iota.
have [-> _ _ _ _] := init_set_eq (Instance approximator.Approximator
                       (dict_set [::] "_model" PyNone)) i.
rewrite (@inputs_setter_with_model _ _ PyNone) //.
case: (approximator.accepted_io i) => //; rewrite /store; lazy beta iota.
set s1 := Instance _ _.
have [_ -> _ _ _] := init_set_eq s1 o.
rewrite (@outputs_setter_with_model _ _ PyNone) //.
by case: (approximator.accepted_io o).
Qed.

Lemma get_field_eq (self : approximator.obj) (name field : string) :
  List.In (name, field)
    [:: ("inputs", "_inputs"); ("outputs", "_outputs"); ("model", "_model");
        ("preprocessors", "_preprocessors");
        ("postprocessors", "_postprocessors")] ->
  approximator.get name self =
  match dict_get (dict self) field with
  | Some v => Ok (Data v, self)
  | None => Raise AttributeError
  end.
Proof.
case: self => -[] d H; rewrite /approximator.get /getattr.
by repeat (case: H => [[<- <-]|H] //;
     first by rewrite /= /approximator.inputs_getter
       /approximator.outputs_getter /approximator.model_getter
       /approximator.preprocessors_getter /approximator.postprocessors_getter
       /load /=; case: (dict_get d _)).
Qed.

Ltac read_field :=
  match goal with
  | |- context [approximator.get ?name _] =>
      rewrite (@get_field_eq _ name _ ltac:(choose_entry)) /=
              ?dict_get_set_same
  end.

Lemma number_not_None (v : pyval) :
  isinstance_any v [:: "int"; "float"] -> ~~ is_None v.
Proof. by case: v. Qed.

Lemma number_accepted (v : pyval) :
  isinstance_any v [:: "int"; "float"] -> approximator.accepted_io v.
Proof. by rewrite /approximator.accepted_io => ->; rewrite orbT. Qed.

Lemma stored_io_number (v : pyval) :
  isinstance_any v [:: "int"; "float"] ->
  approximator.stored_io v = approximator.np_array1 v.
Proof.
by move=> Hn; rewrite /approximator.stored_io Hn (number_not_None Hn).
Qed.

Lemma stored_io_idem (v : pyval) :
  approximator.stored_io (approximator.stored_io v) = approximator.stored_io v.
Proof.
rewrite {2 3}/approximator.stored_io.
by case E: (~~ is_None v && _) => //; rewrite /approximator.stored_io E.
Qed.

Lemma accepted_stored (v : pyval) :
  approximator.accepted_io v ->
  approximator.accepted_io (approximator.stored_io v).
Proof. by rewrite /approximator.stored_io; case: ifP. Qed.

Lemma dict_set_idem (d : pydict) (k : string) (v : pyval) :
  dict_set (dict_set d k v) k v = dict_set d k v.
Proof.
elim: d => [|[k' v'] d IH] /=; first by rewrite String.eqb_refl.
case E: (String.eqb k k') => /=; first by rewrite String.eqb_refl.
by rewrite E IH.
Qed.

(** X7.  A number given as [inputs] or [outputs] (an [int], a [bool] or
    a [float]) is not stored as it is: the property then reads the
    one-element array [np.array([v])]. *)
Theorem numbers_are_wrapped (self : approximator.obj) (v m0 : pyval) :
  dict_get (dict self) "_model" = Some m0 ->
  isinstance_any v [:: "int"; "float"] ->
  (exists2 self', approximator.set "inputs" v self = Ok (PyNone, self') &
     approximator.get "inputs" self'
       = Ok (Data (approximator.np_array1 v), self')) /\
  (exists2 self', approximator.set "outputs" v self = Ok (PyNone, self') &
     approximator.get "outputs" self'
       = Ok (Data (approximator.np_array1 v), self')).
Proof.
move=> Hm Hn; split.
- exists (Instance (cls self)
            (dict_set (dict self) "_inputs" (approximator.np_array1 v))).
    rewrite set_inputs_eq (inputs_setter_with_model _ Hm) number_accepted //.
    by rewrite stored_io_number.
  by read_field.
- exists (Instance (cls self)
            (dict_set (dict self) "_outputs" (approximator.np_array1 v))).
    rewrite set_outputs_eq (outputs_setter_with_model _ Hm) number_accepted //.
    by rewrite stored_io_number.
  by read_field.
Qed.

Lemma numbers_are_wrapped_witness :
  exists2 self',
    approximator.set "inputs" (PyFloat 5 (-1))
      (Instance approximator.Approximator [:: ("_model", PyNone)])
      = Ok (PyNone, self') &
    approximator.get "inputs" self'
      = Ok (Data (approximator.np_array1 (PyFloat 5 (-1))), self').
Proof.
by have [] := @numbers_are_wrapped
     (Instance approximator.Approximator [:: ("_model", PyNone)])
     (PyFloat 5 (-1)) PyNone erefl isT.
Defined.

(** X8.  A value that is neither [None], a number, a [State], an
    [Action], a tensor nor an array is refused as [inputs] and as
    [outputs] with [TypeError], on any instance. *)
Theorem other_io_is_rejected (self : approximator.obj) (v : pyval) :
  ~~ approximator.accepted_io v ->
  approximator.set "inputs" v self = Raise TypeError /\
  approximator.set "outputs" v self = Raise TypeError.
Proof.
move=> /negbTE Ha.
rewrite set_inputs_eq set_outputs_eq inputs_setter_eq outputs_setter_eq Ha.
by move: Ha; rewrite /approximator.accepted_io; case: (is_None v).
Qed.

Lemma other_io_is_rejected_witness :
  approximator.set "inputs" (PyList [:: PyInt 1; PyInt 2])
    (Instance approximator.Approximator [:: ("_model", PyNone)])
  = Raise TypeError.
Proof.
by have [] := @other_io_is_rejected
     (Instance approximator.Approximator [:: ("_model", PyNone)])
     (PyList [:: PyInt 1; PyInt 2]) isT.
Defined.

(** X9.  Assigning [inputs] is idempotent: after a successful assignment,
    reading the property and assigning the value read back succeeds and
    leaves the instance exactly as it is. *)
Theorem inputs_reassignment_is_stable
  (self self' : approximator.obj) (v r : pyval) :
  approximator.set "inputs" v self = Ok (r, self') ->
  exists2 w, approximator.get "inputs" self' = Ok (Data w, self') &
             approximator.set "inputs" w self' = Ok (PyNone, self').
Proof.
rewrite set_inputs_eq inputs_setter_eq.
have Hget d w : approximator.get "inputs"
    (Instance (cls self) (dict_set d "_inputs" w))
    = Ok (Data w, Instance (cls self) (dict_set d "_inputs" w)).
  by read_field.
case En: (is_None v).
  move=> [_ <-]; exists v => //.
  by rewrite set_inputs_eq inputs_setter_eq En /store /= dict_set_idem.
case Ha: (approximator.accepted_io v) => //.
case Hm: (dict_get (dict self) "_model") => [m0|] // [_ <-].
exists (approximator.stored_io v) => //.
rewrite set_inputs_eq (@inputs_setter_with_model _ _ m0).
  by rewrite /= dict_get_set_other.
by rewrite accepted_stored // stored_io_idem /store /= dict_set_idem.
Qed.

Lemma inputs_reassignment_is_stable_witness :
  exists2 w,
    approximator.get "inputs"
      (Instance approximator.Approximator
         [:: ("_model", PyNone);
             ("_inputs", approximator.np_array1 (PyInt 4))])
    = Ok (Data w,
          Instance approximator.Approximator
            [:: ("_model", PyNone);
                ("_inputs", approximator.np_array1 (PyInt 4))]) &
    approximator.set "inputs" w
      (Instance approximator.Approximator
         [:: ("_model", PyNone);
             ("_inputs", approximator.np_array1 (PyInt 4))])
    = Ok (PyNone,
          Instance approximator.Approximator
            [:: ("_model", PyNone);
                ("_inputs", approximator.np_array1 (PyInt 4))]).
Proof.
exact: (@inputs_reassignment_is_stable
          (Instance approximator.Approximator [:: ("_model", PyNone)])
          _ (PyInt 4) PyNone erefl).
Defined.

(** X10.  [Approximator(inputs, outputs)] succeeds exactly when both
    arguments are accepted, and raises [TypeError] otherwise.  The
    instance built has no model, empty lists of pre- and post-processors,
    and its inputs and outputs are the arguments, numbers being wrapped
    into arrays. *)
Theorem construction_with_defaults (i o : pyval) :
  (approximator.accepted_io i && approximator.accepted_io o ->
   exists2 self, approximator.new [:: i; o] = Ok self &
     [/\ approximator.get "inputs" self
           = Ok (Data (approximator.stored_io i), self),
         approximator.get "outputs" self
           = Ok (Data (approximator.stored_io o), self),
         approximator.get "model" self = Ok (Data PyNone, self),
         approximator.get "preprocessors" self
           = Ok (Data (PyList [::]), self) &
         approximator.get "postprocessors" self
           = Ok (Data (PyList [::]), self)]) /\
  (~~ (approximator.accepted_io i && approximator.accepted_io o) ->
   approximator.new [:: i; o] = Raise TypeError).
Proof.
have -> : approximator.new [:: i; o] = approximator.new [:: i; o; PyNone].
  by [].
rewrite new_eq3; split=> [->|/negbTE ->] //.
by exists (approximator.built i o).
Qed.

Lemma construction_with_defaults_witness :
  approximator.new [:: PyStr "state"; PyInt 2] = Raise TypeError /\
  exists2 self,
    approximator.new [:: PyInt 3; approximator.array_of_shape [:: 2%Z]]
      = Ok self &
    approximator.get "inputs" self
      = Ok (Data (approximator.np_array1 (PyInt 3)), self).
Proof.
split.
  by have [_ H] := construction_with_defaults (PyStr "state") (PyInt 2);
     apply: H.
have [H _] := construction_with_defaults
                (PyInt 3) (approximator.array_of_shape [:: 2%Z]).
have [self Hs [Hi _ _ _ _]] := H isT.
by exists self.
Defined.

(** X11.  A model that is not [None] cannot be given to the constructor
    together with [None] inputs or [None] outputs: the construction
    raises [ValueError]. *)
Theorem model_needs_inputs_and_outputs (i o m : pyval) :
  approximator.accepted_io i -> approximator.accepted_io o ->
  ~~ is_None m -> is_None i || is_None o ->
  approximator.new [:: i; o; m] = Raise ValueError.
Proof.
move=> Hi Ho /negbTE Hm Hn; rewrite new_eq3 Hi Ho /=.
rewrite /approximator.model_setter /bind /load /= Hm /= stored_io_None.
case Ni: (is_None i) Hn => //= No.
by rewrite stored_io_None No.
Qed.

Lemma model_needs_inputs_and_outputs_witness :
  approximator.new
    [:: PyNone; approximator.array_of_shape [:: 2%Z];
        approximator.model_of_shapes [:: 3%Z] [:: 2%Z]]
  = Raise ValueError.
Proof. exact: model_needs_inputs_and_outputs. Defined.

(** X12.  The type of the model is not examined.  With inputs and
    outputs that are not [None], the constructor stores any value whose
    [input_shape] attribute can be read, and raises [AttributeError] for
    a value that has no such attribute. *)
Theorem model_is_accepted_by_input_shape (i o m : pyval) :
  approximator.accepted_io i -> approximator.accepted_io o ->
  ~~ is_None i -> ~~ is_None o -> ~~ is_None m ->
  (forall shape, attr_of m "input_shape" = Ok shape ->
     exists2 self, approximator.new [:: i; o; m] = Ok self &
                   approximator.get "model" self = Ok (Data m, self)) /\
  (forall e, attr_of m "input_shape" = Raise e ->
     approximator.new [:: i; o; m] = Raise AttributeError).
Proof.
move=> Hi Ho /negbTE Ni /negbTE No /negbTE Nm; rewrite new_eq3 Hi Ho /=.
rewrite /approximator.model_setter /bind /load /= Nm /=.
rewrite stored_io_None Ni /= stored_io_None No /=.
rewrite /lift /=; split=> [shape ->|e].
  by eexists; [reflexivity | read_field].
by case: m Nm => //= mro attrs _; case: (dict_get attrs "input_shape").
Qed.

Lemma model_is_accepted_by_input_shape_witness :
  approximator.new
    [:: approximator.array_of_shape [:: 3%Z];
        approximator.array_of_shape [:: 2%Z]; PyInt 7]
  = Raise AttributeError.
Proof.
have [_ H] := @model_is_accepted_by_input_shape
  (approximator.array_of_shape [:: 3%Z])
  (approximator.array_of_shape [:: 2%Z]) (PyInt 7) isT isT isT isT isT.
exact: (H AttributeError).
Defined.

Lemma set_processors_eq (self : approximator.obj) (name field : string)
  (v : pyval) :
  List.In (name, field) approximator.processor_properties ->
  approximator.set name v self = approximator.processors_setter field v self.
Proof.
rewrite /approximator.processor_properties => H.
by repeat (case: H => [[<- <-]|H] //;
     first by rewrite ?set_preprocessors_eq ?set_postprocessors_eq).
Qed.

Lemma plain_not_callable (v : pyval) :
  approximator.plain v -> approximator.callable v = false.
Proof. by case: v. Qed.

Lemma has_plain_not_all_callable (items : seq pyval) :
  has approximator.plain items -> all approximator.callable items = false.
Proof.
elim: items => [|v items IH] //= /orP [/plain_not_callable -> //|/IH ->].
exact: andbF.
Qed.

(** X13.  Assigning to [preprocessors] or [postprocessors] a value that
    is not an object: [None] is stored as the empty list; a boolean or a
    number raises [TypeError]; the empty list, the empty tuple and the
    empty string are stored as they are; a list or a tuple with an item
    that is not an object, and a string that is not empty, raise
    [ValueError]. *)
Theorem processors_of_plain_values
  (self : approximator.obj) (name field : string) :
  List.In (name, field) approximator.processor_properties ->
  let stored v :=
    Ok (PyNone, Instance (cls self) (dict_set (dict self) field v)) in
  [/\ approximator.set name PyNone self = stored (PyList [::]),
      forall v, approximator.scalar v ->
        approximator.set name v self = Raise TypeError,
      [/\ approximator.set name (PyList [::]) self = stored (PyList [::]),
          approximator.set name (PyTuple [::]) self = stored (PyTuple [::]) &
          approximator.set name (PyStr "") self = stored (PyStr "")],
      forall items, has approximator.plain items ->
        approximator.set name (PyList items) self = Raise ValueError /\
        approximator.set name (PyTuple items) self = Raise ValueError &
      forall a s,
        approximator.set name (PyStr (String a s)) self = Raise ValueError].
Proof.
move=> Hin stored; rewrite /stored.
split.
- by rewrite (set_processors_eq _ _ Hin).
- by move=> v Hv; rewrite (set_processors_eq _ _ Hin); case: v Hv.
- by rewrite !(set_processors_eq _ _ Hin).
- move=> items Hp; rewrite !(set_processors_eq _ _ Hin).
  rewrite /approximator.processors_setter /bind /=.
  by rewrite has_plain_not_all_callable.
- by move=> a s; rewrite (set_processors_eq _ _ Hin).
Qed.

Lemma processors_of_plain_values_witness :
  approximator.set "preprocessors" (PyList [:: PyInt 0])
    (Instance approximator.Approximator [::]) = Raise ValueError /\
  approximator.set "postprocessors" (PyFloat 1 0)
    (Instance approximator.Approximator [::]) = Raise TypeError.
Proof.
have Hpre : List.In ("preprocessors", "_preprocessors")
                    approximator.processor_properties.
  by rewrite /approximator.processor_properties /=; choose_entry.
have Hpost : List.In ("postprocessors", "_postprocessors")
                     approximator.processor_properties.
  by rewrite /approximator.processor_properties /=; choose_entry.
split.
  have [_ _ _ H _] := processors_of_plain_values
                        (Instance approximator.Approximator [::]) Hpre.
  by have [] := H [:: PyInt 0] isT.
have [_ H _ _ _] := processors_of_plain_values
                      (Instance approximator.Approximator [::]) Hpost.
exact: H.
Defined.

Lemma model_setter_stores (s self : approximator.obj) (m r : pyval) :
  approximator.model_setter m s = Ok (r, self) ->
  self = Instance (cls s) (dict_set (dict s) "_model" m).
Proof.
rewrite -approximator_set_model_eq model_setter_cases.
case: (is_None m); first by case.
case: (dict_get (dict s) "_inputs") => [i|] //; case: (is_None i) => //.
case: (dict_get (dict s) "_outputs") => [o|] //; case: (is_None o) => //.
by case: (attr_of m "input_shape") => // sh [].
Qed.

Lemma read_delegate_eq (self : approximator.obj) (name : string) :
  List.In name approximator.delegated ->
  approximator.read name self =
    match dict_get (dict self) "_model" with
    | Some m =>
        match attr_of m name with
        | Ok v => Ok (Data v, self)
        | Raise e => Raise e
        end
    | None => Raise AttributeError
    end /\
  forall v, approximator.assign name v self = Raise AttributeError.
Proof.
case: self => -[] d; rewrite /approximator.delegated => H.
by repeat (case: H => [<-|H] //;
     first by split=> //; rewrite /approximator.read /getattr /=
       /approximator.delegate /bind /approximator.model_getter /load /lift /=;
       case: (dict_get d "_model") => // m; case: (attr_of m _)).
Qed.

(** X16.  The properties that delegate to the inner model ([input_size],
    [output_shape], [num_parameters] and the like) return the attribute
    of the same name of the model given to the constructor; without a
    model (the default) each of them raises [AttributeError].  None of
    them can be assigned. *)
Theorem delegated_properties
  (i o m : pyval) (self : approximator.obj) (name : string) :
  approximator.new [:: i; o; m] = Ok self ->
  List.In name approximator.delegated ->
  [/\ approximator.read name self =
        match attr_of m name with
        | Ok v => Ok (Data v, self)
        | Raise e => Raise e
        end,
      is_None m -> approximator.read name self = Raise AttributeError &
      forall v, approximator.assign name v self = Raise AttributeError].
Proof.
rewrite new_eq3; case: (_ && _) => //.
case Hs: (approximator.model_setter _ _) => [[r s]|] // [<-] Hin.
have [Hr Ha] := read_delegate_eq s Hin.
have Hm : dict_get (dict s) "_model" = Some m.
  by rewrite (model_setter_stores Hs).
split=> //; rewrite Hr Hm //.
by case: m {Hs Hm}.
Qed.

Lemma delegated_properties_witness :
  approximator.read "input_size"
    (approximator.built (approximator.array_of_shape [:: 3%Z])
                        (approximator.array_of_shape [:: 2%Z]))
  = Raise AttributeError.
Proof.
have Hin : List.In "input_size" approximator.delegated.
  by rewrite /approximator.delegated /=; choose_entry.
have [_ H _] := @delegated_properties
  (approximator.array_of_shape [:: 3%Z])
  (approximator.array_of_shape [:: 2%Z]) PyNone _ "input_size" erefl Hin.
exact: H.
Defined.

(** X17.  [_size] never raises on a value that is not a [State], an
    [Action], an array or a tensor: it returns the value itself when it
    is an [int] (a [bool] included) and 0 for anything else, a [float],
    a list or [None] alike. *)
Theorem size_of_plain_values
  (state_size numel : pyval -> result pyval) (x : pyval) :
  ~~ isinstance_any x [:: "State"; "Action"; "ndarray"; "Tensor"] ->
  approximator._size state_size numel x =
  if isinstance x "int" then Ok x else Ok (PyInt 0).
Proof.
rewrite /approximator._size /isinstance_any /= !orbF !negb_or.
by case/and4P=> /negbTE -> /negbTE -> /negbTE -> /negbTE ->.
Qed.

Lemma size_of_plain_values_witness :
  approximator._size (fun _ => Raise TypeError) (fun _ => Raise TypeError)
    (PyFloat 5 (-1)) = Ok (PyInt 0) /\
  approximator._size (fun _ => Raise TypeError) (fun _ => Raise TypeError)
    (PyBool true) = Ok (PyBool true).
Proof.
by split; rewrite size_of_plain_values.
Defined.

End ApproximatorExtras.

(** ** manipulator.py *)

Section ManipulatorExtras.
Import Py.
Local Open Scope string_scope.

Variable Robot : Type.
Variable Robot_init : seq pyval -> result Robot.
Variable get_link_ids : Robot -> pyval -> result pyval.

Notation get_arm_ids := (manipulator.get_arm_ids get_link_ids).
Notation get_hand_ids := (manipulator.get_hand_ids get_link_ids).
Notation get_ids := (manipulator.get_ids get_link_ids).

(** Indexing a list by an integer. *)
Lemma list_getitem_int (l : seq pyval) (z : Z) :
  let n := Z.of_nat (size l) in
  [/\ (0 <= z < n)%Z ->
        list_getitem l (PyInt z) = Ok (nth PyNone l (Z.to_nat z)),
      (- n <= z < 0)%Z ->
        list_getitem l (PyInt z) = Ok (nth PyNone l (Z.to_nat (z + n))) &
      (z < - n \/ n <= z)%Z -> list_getitem l (PyInt z) = Raise IndexError].
Proof.
move=> n; rewrite /list_getitem /= -/n.
have inr k : (0 <= k < n)%Z -> (0 <=? k)%Z && (k <? n)%Z = true.
  by move=> Hk; apply/andP; split; [apply/Z.leb_le | apply/Z.ltb_lt]; lia.
have outr k : (k < 0 \/ n <= k)%Z -> (0 <=? k)%Z && (k <? n)%Z = false.
  move=> Hk; apply/negP => /andP [/Z.leb_le H1 /Z.ltb_lt H2]; lia.
split=> H.
- have -> : (z <? 0)%Z = false by apply/Z.ltb_ge; lia.
  by rewrite inr.
- have -> : (z <? 0)%Z = true by apply/Z.ltb_lt; lia.
  by rewrite inr //; lia.
- by case: (Z.ltb_spec z 0) => Hz; rewrite outr //; lia.
Qed.

(** X18.  An integer argument indexes the list of arms (of hands) as
    Python does: [0 .. n-1] from the front, [-n .. -1] from the back, and
    anything else raises [IndexError]. *)
Theorem integer_argument
  (self : manipulator.ManipulatorRobot Robot) (z : Z) :
  let arms := manipulator.arms self in
  let hands := manipulator.hands self in
  let na := Z.of_nat (size arms) in
  let nh := Z.of_nat (size hands) in
  [/\ (0 <= z < na)%Z ->
        get_arm_ids self (PyInt z) = Ok (nth PyNone arms (Z.to_nat z)),
      (- na <= z < 0)%Z ->
        get_arm_ids self (PyInt z) = Ok (nth PyNone arms (Z.to_nat (z + na))) &
      (z < - na \/ na <= z)%Z ->
        get_arm_ids self (PyInt z) = Raise IndexError] /\
  [/\ (0 <= z < nh)%Z ->
        get_hand_ids self (PyInt z) = Ok (nth PyNone hands (Z.to_nat z)),
      (- nh <= z < 0)%Z ->
        get_hand_ids self (PyInt z)
          = Ok (nth PyNone hands (Z.to_nat (z + nh))) &
      (z < - nh \/ nh <= z)%Z ->
        get_hand_ids self (PyInt z) = Raise IndexError].
Proof.
move=> arms hands na nh.
by split; [exact: (list_getitem_int arms z) | exact: (list_getitem_int hands z)].
Qed.

Lemma get_ids_int_eq (r : Robot) (links : seq pyval) (z : Z) :
  get_ids r links (PyInt z) = list_getitem links (PyInt z).
Proof. by []. Qed.

(** A resolvable item is looked up as it would be alone. *)
Lemma get_ids_resolvable (r : Robot) (links : seq pyval) (item : pyval) :
  manipulator.resolvable item ->
  get_ids r links item =
  if isinstance item "int" then list_getitem links item
  else manipulator.by_name get_link_ids r links item.
Proof.
rewrite /manipulator.resolvable /manipulator.get_ids => H.
have -> : ~~ is_None item by case: item H.
by case: (isinstance item "int") H => //= ->.
Qed.

(** The loop succeeds exactly when every item is resolvable and succeeds
    alone; it appends the results in order. *)
Lemma collect_complete (r : Robot) (links items vs : seq pyval) :
  List.Forall2 (fun item v => manipulator.resolvable item /\
                              get_ids r links item = Ok v) items vs ->
  forall acc,
    manipulator.collect get_link_ids r links items acc = Ok (PyList (acc ++ vs)).
Proof.
elim=> [|item v items' vs' [Hr Hv] _ IH] acc /=; first by rewrite cats0.
move: Hv; rewrite (get_ids_resolvable _ _ Hr).
case Hi: (isinstance item "int"); first by move=> ->; rewrite IH cat_rcons.
have -> : isinstance item "str" by move: Hr; rewrite /manipulator.resolvable Hi.
by move=> ->; rewrite IH cat_rcons.
Qed.

Lemma collect_sound (r : Robot) (links items acc : seq pyval) (res : pyval) :
  manipulator.collect get_link_ids r links items acc = Ok res ->
  exists2 vs, res = PyList (acc ++ vs) &
    List.Forall2 (fun item v => manipulator.resolvable item /\
                                get_ids r links item = Ok v) items vs.
Proof.
elim: items acc => [|item items IH] acc /=.
  by move=> [<-]; exists [::]; [rewrite cats0 | constructor].
case Hi: (isinstance item "int").
  case Hv: (list_getitem links item) => [v|] // /IH [vs -> H].
  exists (v :: vs); first by rewrite cat_rcons.
  have Hr : manipulator.resolvable item by rewrite /manipulator.resolvable Hi.
  by constructor=> //; split=> //; rewrite get_ids_resolvable // Hi.
case Hs: (isinstance item "str") => //.
case Hv: (manipulator.by_name _ _ _ _) => [v|] // /IH [vs -> H].
exists (v :: vs); first by rewrite cat_rcons.
have Hr : manipulator.resolvable item.
  by rewrite /manipulator.resolvable Hs orbT.
by constructor=> //; split=> //; rewrite get_ids_resolvable // Hi.
Qed.

(** X19.  With a list or a tuple as argument, [get_arm_ids] succeeds
    exactly when every item is an [int] or a [str] for which the call
    succeeds alone, and it then returns the list of those results, in
    the order of the items.  The same holds of [get_hand_ids]. *)
Theorem sequence_argument
  (self : manipulator.ManipulatorRobot Robot) (items : seq pyval)
  (res : pyval) :
  let arm item v :=
    manipulator.resolvable item /\ get_arm_ids self item = Ok v in
  let hand item v :=
    manipulator.resolvable item /\ get_hand_ids self item = Ok v in
  [/\ get_arm_ids self (PyList items) = Ok res <->
        exists2 vs, res = PyList vs & List.Forall2 arm items vs,
      get_arm_ids self (PyTuple items) = Ok res <->
        exists2 vs, res = PyList vs & List.Forall2 arm items vs,
      get_hand_ids self (PyList items) = Ok res <->
        exists2 vs, res = PyList vs & List.Forall2 hand items vs &
      get_hand_ids self (PyTuple items) = Ok res <->
        exists2 vs, res = PyList vs & List.Forall2 hand items vs].
Proof.
move=> arm hand.
rewrite /manipulator.get_arm_ids /manipulator.get_hand_ids
        /manipulator.get_ids /=.
by split; (split=> [/collect_sound|[vs -> /collect_complete ->]] //).
Qed.

(** X20.  When a call with a list or a tuple succeeds, every item of the
    argument is an [int] or a [str], and the list returned has as many
    elements as the argument.  An item of another type never yields a
    result. *)
Theorem sequence_result_shape
  (self : manipulator.ManipulatorRobot Robot) (items : seq pyval)
  (res : pyval) :
  get_arm_ids self (PyList items) = Ok res \/
  get_arm_ids self (PyTuple items) = Ok res \/
  get_hand_ids self (PyList items) = Ok res \/
  get_hand_ids self (PyTuple items) = Ok res ->
  all manipulator.resolvable items /\
  exists2 vs, res = PyList vs & size vs = size items.
Proof.
have shape links r vs :
    List.Forall2 (fun item v => manipulator.resolvable item /\
                                get_ids r links item = Ok v) items vs ->
    all manipulator.resolvable items /\ size vs = size items.
  by elim=> [|item v its vs' [Hr _] _ [Ha Hs]] //=; rewrite Hr Ha Hs.
rewrite /manipulator.get_arm_ids /manipulator.get_hand_ids
        /manipulator.get_ids /=.
by move=> [|[|[|]]] /collect_sound [vs -> /shape [Ha Hs]]; split=> //;
   exists vs.
Qed.

(** X21.  The empty list and the empty tuple are not [None]: they return
    the empty list, where [None] returns all the arms (all the hands). *)
Theorem empty_sequence_argument (self : manipulator.ManipulatorRobot Robot) :
  [/\ get_arm_ids self (PyList [::]) = Ok (PyList [::]),
      get_arm_ids self (PyTuple [::]) = Ok (PyList [::]),
      get_hand_ids self (PyList [::]) = Ok (PyList [::]),
      get_hand_ids self (PyTuple [::]) = Ok (PyList [::]) &
      get_arm_ids self PyNone = Ok (PyList (manipulator.arms self)) /\
      get_hand_ids self PyNone = Ok (PyList (manipulator.hands self))].
Proof. by []. Qed.

(** X22.  A robot that has just been constructed has no arm and no hand:
    the counts are 0, [None] returns empty lists, and every integer
    index raises [IndexError], as do the four properties of a
    [BiManipulatorRobot]. *)
Theorem fresh_robot_is_empty
  (args : seq pyval) (self : manipulator.BiManipulatorRobot Robot) :
  manipulator.BiManipulatorRobot_init Robot_init args = Ok self ->
  let m := manipulator.manip self in
  [/\ manipulator.num_arms m = PyInt 0 /\ manipulator.num_hands m = PyInt 0,
      get_arm_ids m PyNone = Ok (PyList [::]) /\
      get_hand_ids m PyNone = Ok (PyList [::]),
      forall z, get_arm_ids m (PyInt z) = Raise IndexError /\
                get_hand_ids m (PyInt z) = Raise IndexError,
      manipulator.left_arm self = Raise IndexError /\
      manipulator.right_arm self = Raise IndexError &
      manipulator.left_hand self = Raise IndexError /\
      manipulator.right_hand self = Raise IndexError].
Proof.
rewrite /manipulator.BiManipulatorRobot_init /manipulator.ManipulatorRobot_init.
case: (Robot_init args) => // r [<-]; split=> // z.
have [_ _ H] := list_getitem_int [::] z.
rewrite /manipulator.get_arm_ids /manipulator.get_hand_ids.
by rewrite !get_ids_int_eq H //=; lia.
Qed.

(** X23.  With the indices the constructor sets, once the lists have
    been filled: the left arm (hand) is the first element and the right
    arm (hand) the second; they raise [IndexError] when the list is too
    short for them. *)
Theorem default_sides
  (args : seq pyval) (self : manipulator.BiManipulatorRobot Robot)
  (l : seq pyval) :
  manipulator.BiManipulatorRobot_init Robot_init args = Ok self ->
  [/\ manipulator.left_arm (manipulator.with_arms self l) =
        (if l is x :: _ then Ok x else Raise IndexError),
      manipulator.right_arm (manipulator.with_arms self l) =
        (if l is [:: _, y & _] then Ok y else Raise IndexError),
      manipulator.left_hand (manipulator.with_hands self l) =
        (if l is x :: _ then Ok x else Raise IndexError) &
      manipulator.right_hand (manipulator.with_hands self l) =
        (if l is [:: _, y & _] then Ok y else Raise IndexError)].
Proof.
rewrite /manipulator.BiManipulatorRobot_init /manipulator.ManipulatorRobot_init.
case: (Robot_init args) => // r [<-].
rewrite /manipulator.left_arm /manipulator.right_arm /manipulator.left_hand
        /manipulator.right_hand /=.
have [H0 _ _] := list_getitem_int l 0.
have [H1 _ H1'] := list_getitem_int l 1.
case: l H0 H1 H1' => [|x [|y l]] H0 H1 H1' //; split=> //;
  try (by rewrite H0 //=; lia); try (by rewrite H1 //=; lia);
  by rewrite H1' //=; lia.
Qed.

End ManipulatorExtras.

Section ManipulatorWitnesses.
Import Py.
Local Open Scope string_scope.

Lemma integer_argument_witness :
  manipulator.get_arm_ids manipulator.one_name manipulator.two_arms
    (PyInt (-1)) = Ok (PyInt 9) /\
  manipulator.get_hand_ids manipulator.one_name manipulator.two_arms
    (PyInt 1) = Raise IndexError.
Proof.
split.
  by have [_ Ha _] :=
       (integer_argument manipulator.one_name manipulator.two_arms (-1)).1;
     rewrite Ha.
by have [_ _ Hh] :=
     (integer_argument manipulator.one_name manipulator.two_arms 1).2;
   rewrite Hh //=; lia.
Defined.

Lemma sequence_argument_witness :
  manipulator.get_arm_ids manipulator.one_name manipulator.two_arms
    (PyTuple [:: PyInt 1; PyStr "left"])
  = Ok (PyList [:: PyInt 9; PyInt 4]).
Proof.
have [_ [_ H] _ _] :=
  sequence_argument manipulator.one_name manipulator.two_arms
    [:: PyInt 1; PyStr "left"] (PyList [:: PyInt 9; PyInt 4]).
apply: H; exists [:: PyInt 9; PyInt 4] => //.
by repeat constructor.
Defined.

Lemma sequence_result_shape_witness :
  all manipulator.resolvable [:: PyInt 1; PyStr "left"] /\
  exists2 vs, PyList [:: PyInt 9; PyInt 4] = PyList vs &
              size vs = size [:: PyInt 1; PyStr "left"].
Proof.
apply: (@sequence_result_shape unit manipulator.one_name manipulator.two_arms).
by left.
Defined.

Lemma fresh_robot_is_empty_witness :
  manipulator.right_hand
    (manipulator.BiManipulator (manipulator.Manipulator tt [::] [::]) 0 0 1 1)
  = Raise IndexError.
Proof.
have [_ _ _ _ [_ H]] :=
  @fresh_robot_is_empty unit (fun _ => Ok tt) manipulator.one_name [::] _ erefl.
exact: H.
Defined.

Lemma default_sides_witness :
  manipulator.right_arm
    (manipulator.with_arms
       (manipulator.BiManipulator (manipulator.Manipulator tt [::] [::])
                                  0 0 1 1)
       [:: PyInt 4; PyInt 9])
  = Ok (PyInt 9).
Proof.
have [_ H _ _] :=
  @default_sides unit (fun _ => Ok tt) [::] _ [:: PyInt 4; PyInt 9] erefl.
exact: H.
Defined.

End ManipulatorWitnesses.

(** ** The quadratic programs of the module docstring *)

Section SoftExtras.
Import GRing.Theory.
Local Open Scope ring_scope.

Variable R : comRingType.

(** X24.  For a symmetric weight the matrix [Q = A^T W A] of a soft task
    is symmetric, as the module docstring says. *)
Theorem soft_Q_is_symmetric (m n : nat) (A : 'M[R]_(m, n)) (W : 'M[R]_m) :
  W^T = W -> (qp.soft_Q A W)^T = qp.soft_Q A W.
Proof. by move=> sym; rewrite /qp.soft_Q !trmx_mul trmxK sym mulmxA. Qed.

(** X25.  The augmented task: stacking the matrices and the targets of
    two soft tasks and placing their weights along the diagonal gives one
    task whose weighted objective is the sum of the two objectives, and
    whose standard form [Q], [p] is the sum of the two standard forms. *)
Theorem augmented_task (m1 m2 n : nat)
  (A1 : 'M[R]_(m1, n)) (A2 : 'M[R]_(m2, n))
  (b1 : 'cV[R]_m1) (b2 : 'cV[R]_m2) (W1 : 'M[R]_m1) (W2 : 'M[R]_m2)
  (x : 'cV[R]_n) :
  let A := qp.stack_A A1 A2 in
  let b := qp.stack_b b1 b2 in
  let W := qp.stack_W W1 W2 in
  [/\ qp.weighted_sqnorm W (A *m x - b) =
        qp.weighted_sqnorm W1 (A1 *m x - b1) +
        qp.weighted_sqnorm W2 (A2 *m x - b2),
      qp.soft_Q A W = qp.soft_Q A1 W1 + qp.soft_Q A2 W2 &
      qp.soft_p A W b = qp.soft_p A1 W1 b1 + qp.soft_p A2 W2 b2].
Proof.
move=> A b W; rewrite /A /b /W /qp.stack_A /qp.stack_b /qp.stack_W.
rewrite /qp.weighted_sqnorm /qp.soft_Q /qp.soft_p.
split.
- rewrite mul_col_mx opp_col_mx add_col_mx tr_col_mx mul_row_block.
  by rewrite !mulmx0 addr0 add0r mul_row_col mxE.
- rewrite tr_col_mx mul_row_block !mulmx0 addr0 add0r.
  by rewrite mul_row_col.
- rewrite tr_col_mx mul_row_block !mulmx0 addr0 add0r.
  by rewrite mul_row_col scalerDr.
Qed.

End SoftExtras.

Section BoundsExtras.
Import GRing.Theory Num.Theory.
Local Open Scope ring_scope.

Variable R : numDomainType.
Variable n : nat.

(** X26.  Bounds on the variables are an inequality constraint: with [G]
    the identity on top of minus the identity and [h] the upper bounds
    on top of minus the lower bounds, [G x <= h] holds exactly when every
    variable lies between its lower and its upper bound. *)
Theorem bounds_as_inequality (lb ub x : 'cV[R]_n) :
  (forall k, (qp.bounds_G R n *m x) k 0 <= (qp.bounds_h lb ub) k 0) <->
  (forall i, lb i 0 <= x i 0 <= ub i 0).
Proof.
rewrite /qp.bounds_G /qp.bounds_h mul_col_mx mul1mx mulNmx mul1mx.
split=> [H i|H k].
  have := H (lshift n i); have := H (rshift n i).
  by rewrite !col_mxEd !col_mxEu !mxE lerN2 => -> ->.
case: (split_ordP k) => i ->; have /andP [Hl Hu] := H i.
  by rewrite !col_mxEu.
by rewrite !col_mxEd !mxE lerN2.
Qed.

End BoundsExtras.

Section QpWitnesses.
Import GRing.Theory Num.Theory.
Local Open Scope ring_scope.

Lemma soft_Q_is_symmetric_witness :
  (qp.soft_Q (const_mx 3 : 'M[int]_(2, 3)) 2%:M)^T =
  qp.soft_Q (const_mx 3 : 'M[int]_(2, 3)) 2%:M.
Proof. by apply: soft_Q_is_symmetric; rewrite tr_scalar_mx. Defined.

Lemma bounds_as_inequality_witness :
  (qp.bounds_G int 2 *m (const_mx 1 : 'cV[int]_2)) (rshift 2 ord0) 0 <=
  (qp.bounds_h (const_mx 0) (const_mx 2 : 'cV[int]_2)) (rshift 2 ord0) 0.
Proof.
have [_ H] := bounds_as_inequality (const_mx 0) (const_mx 2 : 'cV[int]_2)
                                   (const_mx 1).
by apply: H => i; rewrite !mxE.
Defined.

End QpWitnesses.
